(** * FastAPI_Retail: the price pipeline (discount tiers, sales tax, validation)

    A shallow embedding of [app/discount.py], [app/tax.py],
    [app/price_calculator.py] and [app/exceptions.py].

    Python's [float] is IEEE-754 binary64.  It is modelled by the Standard
    Library's [spec_float] with [prec = 53] and [emax = 1024]: every
    operation is a function on integers, so the model evaluates on concrete
    inputs and rounds exactly where the interpreter does. *)

From Stdlib Require Import ZArith Bool List String Lia.
From Stdlib Require Import Floats.SpecFloat.
Import ListNotations.

Local Open Scope Z_scope.
Local Open Scope string_scope.

(** ** Python floats *)

Module PyFloat.

Definition prec : Z := 53.
Definition emax : Z := 1024.

Definition float := spec_float.

Definition fmul : float -> float -> float := SFmul prec emax.
Definition fadd : float -> float -> float := SFadd prec emax.
Definition fsub : float -> float -> float := SFsub prec emax.
Definition fdiv : float -> float -> float := SFdiv prec emax.

(** Comparisons: every comparison with a NaN is false, as in Python. *)
Definition flt (x y : float) : bool := SFltb x y.
Definition fle (x y : float) : bool := SFleb x y.
Definition fgt (x y : float) : bool := SFltb y x.
Definition fge (x y : float) : bool := SFleb y x.

(** The double nearest to the fraction [n / d] (ties to even).  IEEE
    division is correctly rounded, so dividing the two integers gives it.
    This is how a decimal literal of the source ([8.25], [6.85]) and the
    decimal string produced inside [round] are read back. *)
Definition of_ratio (n : Z) (d : positive) : float :=
  match n with
  | Z0 => S754_zero false
  | Zpos p => fdiv (S754_finite false p 0) (S754_finite false d 0)
  | Zneg p => fdiv (S754_finite true p 0) (S754_finite false d 0)
  end.

(** [float(n)] for a Python int. *)
Definition of_int (n : Z) : float := binary_normalize prec emax n 0 false.

Definition zero : float := S754_zero false.

(** Nearest integer to [n / d] for [0 <= n] and [0 < d], ties to even. *)
Definition round_half_even (n d : Z) : Z :=
  let q := n / d in
  let r := n mod d in
  match 2 * r ?= d with
  | Lt => q
  | Gt => q + 1
  | Eq => if Z.even q then q else q + 1
  end.

(** The magnitude of [x], times 100, rounded to an integer: the digits of
    the decimal string that [round(x, 2)] builds from the exact binary
    value of [x]. *)
Definition hundredths (m : positive) (e : Z) : Z :=
  match e with
  | Zneg k => round_half_even (100 * Zpos m) (2 ^ Zpos k)
  | _ => 100 * Zpos m * 2 ^ e
  end.

(** [round(x, 2)] on a float: the exact value of [x] is rounded to two
    decimals (ties to even), and that decimal is read back as the nearest
    double; the sign is kept, also on a zero result; NaN and the
    infinities round to themselves. *)
Definition round2 (x : float) : float :=
  match x with
  | S754_finite s m e =>
      match hundredths m e with
      | Zpos n => fdiv (S754_finite s n 0) (S754_finite false 100 0)
      | _ => S754_zero s
      end
  | _ => x
  end.

End PyFloat.

Import PyFloat.

(** ** Python values, built-ins and exceptions *)

(** The values that the error payloads hold. *)
#[local] Unset Elimination Schemes.
Inductive pyval :=
| VInt (z : Z)
| VFloat (x : float)
| VStr (s : string)
| VList (l : list pyval)
| VDict (d : list (string * pyval)).
#[local] Set Elimination Schemes.

(** The [detail] dictionary of a [RetailException]. *)
Record http_detail := {
  error_code : string;
  message : string;
  additional_info : list (string * pyval)
}.

(** What the interpreter and the web framework provide and the repository
    only uses: the text of a float ([repr], as an f-string prints it), the
    text [str(e)] of an [HTTPException] (computed by the framework from its
    status code and detail), and the message of the [TypeError] raised on a
    call with too many positional arguments. *)
Class Builtins := {
  float_repr : float -> string;
  http_exception_str : Z -> http_detail -> string;
  too_many_arguments : string
}.

(** The exceptions of the pipeline: the two built-in classes it raises or
    meets, and the classes of [app/exceptions.py] that it raises, each with
    the arguments of its constructor ([ProductNotFoundError] is raised
    nowhere in the repository). *)
Inductive exn :=
| ValueError (msg : string)
| TypeError (msg : string)
| InvalidStateError (state : string) (valid_states : list string)
| StateNotSupportedError (state : string)
| CalculationError (detail : string) (calculation_data : list (string * pyval)).

(** [RetailException.__init__]: the status code and the detail handed to
    [HTTPException]. *)
Definition RetailException (status_code : Z) (detail : string)
    (error_code : string) (additional_info : list (string * pyval))
    : Z * http_detail :=
  (status_code,
   {| error_code := error_code;
      message := detail;
      additional_info := additional_info |}).

(** The [__init__] of each subclass. *)
Definition http_fields (e : exn) : option (Z * http_detail) :=
  match e with
  | InvalidStateError state valid_states =>
      Some (RetailException 400
              ("L'état '" ++ state ++ "' n'est pas valide")
              "INVALID_STATE"
              [("provided_state", VStr state);
               ("valid_states", VList (map VStr valid_states));
               ("suggestion",
                VStr "Veuillez utiliser un des états valides listés")])
  | StateNotSupportedError state =>
      Some (RetailException 400
              ("L'état '" ++ state
                 ++ "' n'est pas encore supporté pour les calculs de taxe")
              "STATE_NOT_SUPPORTED"
              [("state", VStr state);
               ("suggestion",
                VStr "Contactez le support pour ajouter le support de cet état")])
  | CalculationError detail calculation_data =>
      Some (RetailException 500
              ("Erreur lors du calcul : " ++ detail)
              "CALCULATION_ERROR"
              [("calculation_data", VDict calculation_data);
               ("suggestion", VStr "Veuillez vérifier les données d'entrée")])
  | ValueError _ | TypeError _ => None
  end.

(** [str(e)]. *)
Definition py_str `{Builtins} (e : exn) : string :=
  match e with
  | ValueError msg | TypeError msg => msg
  | _ =>
      match http_fields e with
      | Some (status_code, detail) => http_exception_str status_code detail
      | None => ""
      end
  end.

(** [isinstance(e, ValueError)]: none of the repository's classes derives
    from it. *)
Definition is_ValueError (e : exn) : bool :=
  match e with ValueError _ => true | _ => false end.

(** [isinstance(e, (InvalidStateError, StateNotSupportedError))]. *)
Definition is_jurisdiction_error (e : exn) : bool :=
  match e with
  | InvalidStateError _ _ | StateNotSupportedError _ => true
  | _ => false
  end.

Definition is_CalculationError (e : exn) : bool :=
  match e with CalculationError _ _ => true | _ => false end.

(** A call either returns or raises. *)
Inductive result (A : Type) :=
| Ok (a : A)
| Raise (e : exn).
Arguments Ok {A} a.
Arguments Raise {A} e.

Definition bind {A B : Type} (r : result A) (k : A -> result B) : result B :=
  match r with
  | Ok a => k a
  | Raise e => Raise e
  end.

Notation "x <- r ;; k" := (bind r (fun x => k))
  (at level 61, r at next level, right associativity).

(** [try: body  except ...: handler]. *)
Definition try_except {A : Type} (body : result A) (handler : exn -> result A)
    : result A :=
  match body with
  | Ok a => Ok a
  | Raise e => handler e
  end.

(** ** [app/discount.py] *)

Module Discount.

Record DiscountRule := {
  min_amount : float;
  discount_percentage : float;
  description : string
}.

Record DiscountCalculator := {
  discount_rules : list DiscountRule
}.

(** [DiscountCalculator.__init__].  The integer literals of the source sit
    in fields annotated [float]; they are the floats of the same value. *)
Definition init : DiscountCalculator :=
  {| discount_rules :=
       [ {| min_amount := of_int 100; discount_percentage := of_int 5;
            description := "5% de remise pour les achats de plus de 100€" |};
         {| min_amount := of_int 500; discount_percentage := of_int 10;
            description := "10% de remise pour les achats de plus de 500€" |};
         {| min_amount := of_int 1000; discount_percentage := of_int 15;
            description := "15% de remise pour les achats de plus de 1000€" |};
         {| min_amount := of_int 5000; discount_percentage := of_int 20;
            description := "20% de remise pour les achats de plus de 5000€" |} ] |}.

(** [max(items, key=key)] on a non-empty sequence, [best] being the
    maximum so far: a later item replaces it only when its key is
    strictly greater, so the first of several maxima is returned. *)
Fixpoint max_by {A : Type} (key : A -> float) (best : A) (items : list A) : A :=
  match items with
  | [] => best
  | x :: rest => max_by key (if fgt (key x) (key best) then x else best) rest
  end.

Definition applicable_rules (self : DiscountCalculator) (total_amount : float)
    : list DiscountRule :=
  filter (fun rule => fge total_amount (min_amount rule)) (discount_rules self).

Definition get_applicable_discount (self : DiscountCalculator)
    (total_amount : float) : option DiscountRule :=
  match applicable_rules self total_amount with
  | [] => None
  | rule :: rest => Some (max_by discount_percentage rule rest)
  end.

(** The dictionary that [calculate_discount] returns, by key. *)
Record discount_info := {
  d_original_amount : float;
  d_discount_percentage : float;
  d_discount_amount : float;
  d_final_amount : float;
  d_discount_description : string
}.

Definition calculate_discount (self : DiscountCalculator)
    (total_amount : float) : discount_info :=
  match get_applicable_discount self total_amount with
  | None =>
      {| d_original_amount := total_amount;
         d_discount_percentage := zero;
         d_discount_amount := zero;
         d_final_amount := total_amount;
         d_discount_description := "Aucune remise applicable" |}
  | Some discount_rule =>
      let discount_amount :=
        fmul total_amount (fdiv (discount_percentage discount_rule) (of_int 100)) in
      let final_amount := fsub total_amount discount_amount in
      {| d_original_amount := total_amount;
         d_discount_percentage := discount_percentage discount_rule;
         d_discount_amount := round2 discount_amount;
         d_final_amount := round2 final_amount;
         d_discount_description := description discount_rule |}
  end.

End Discount.

(** ** [app/tax.py] *)

Module Tax.

Inductive State := UT | NV | TX | AL | CA.

Definition value (s : State) : string :=
  match s with
  | UT => "UT" | NV => "NV" | TX => "TX" | AL => "AL" | CA => "CA"
  end.

Definition members : list State := [UT; NV; TX; AL; CA].

Definition list_states : list string := map value members.

(** The enumeration's map from values to members. *)
Definition value2member (s : string) : option State :=
  find (fun m => String.eqb (value m) s) members.

Definition is_valid_state (state : string) : bool :=
  match value2member state with
  | Some _ => true
  | None => false
  end.

(** [State(state)]. *)
Definition State_of (state : string) : result State :=
  match value2member state with
  | Some m => Ok m
  | None => Raise (ValueError ("'" ++ state ++ "' is not a valid State"))
  end.

Record TaxRate := {
  rate : float;
  description : string;
  enabled : bool
}.

(** [tax_rates] is a dictionary keyed by the five members: a lookup per
    member, [None] where the key is absent. *)
Record TaxCalculator := {
  tax_rates : State -> option TaxRate
}.

(** [_initialize_tax_rates]. *)
Definition init : TaxCalculator :=
  {| tax_rates := fun s =>
       match s with
       | UT => Some {| rate := of_ratio 685 100; description := "Utah Sales Tax"; enabled := true |}
       | NV => Some {| rate := of_ratio 800 100; description := "Nevada Sales Tax"; enabled := true |}
       | TX => Some {| rate := of_ratio 625 100; description := "Texas Sales Tax"; enabled := true |}
       | AL => Some {| rate := of_ratio 400 100; description := "Alabama Sales Tax"; enabled := true |}
       | CA => Some {| rate := of_ratio 825 100; description := "California Sales Tax"; enabled := true |}
       end |}.

Section Methods.
Context `{Builtins}.

(** [validate_state].  On a disabled entry the source calls
    [StateNotSupportedError(state, message)], but the constructor takes
    the state only: the call itself raises [TypeError]. *)
Definition validate_state (self : TaxCalculator) (state : string)
    : result State :=
  if negb (is_valid_state state) then
    Raise (InvalidStateError state list_states)
  else
    state_enum <- State_of state ;;
    match tax_rates self state_enum with
    | None => Raise (StateNotSupportedError state)
    | Some tax_rate =>
        if negb (enabled tax_rate) then Raise (TypeError too_many_arguments)
        else Ok state_enum
    end.

Definition get_tax_rate (self : TaxCalculator) (state : State)
    : option TaxRate :=
  tax_rates self state.

(** The dictionary that [calculate_tax] returns, by key. *)
Record tax_info := {
  t_original_amount : float;
  t_state : string;
  t_tax_rate : float;
  t_tax_amount : float;
  t_final_amount : float;
  t_tax_description : string;
  t_calculation_details : list string
}.

Definition calculate_tax_body (self : TaxCalculator) (amount : float)
    (state : string) : result tax_info :=
  state_enum <- validate_state self state ;;
  if flt amount zero then
    Raise (ValueError "Le montant ne peut pas être négatif")
  else
    let amount := round2 amount in
    match get_tax_rate self state_enum with
    | None => Raise (StateNotSupportedError state)
    | Some tax_rate =>
        let tax_amount :=
          round2 (fmul amount (fdiv (rate tax_rate) (of_int 100))) in
        let final_amount := round2 (fadd amount tax_amount) in
        let calculation_details :=
          [ "1. Montant de base : " ++ float_repr amount ++ "€";
            "2. État " ++ state ++ " - Taux de taxe : "
              ++ float_repr (rate tax_rate) ++ "%";
            "3. Calcul de la taxe : " ++ float_repr amount ++ "€ × "
              ++ float_repr (rate tax_rate) ++ "% = "
              ++ float_repr tax_amount ++ "€";
            "4. Montant final : " ++ float_repr amount ++ "€ + "
              ++ float_repr tax_amount ++ "€ = "
              ++ float_repr final_amount ++ "€" ] in
        Ok {| t_original_amount := amount;
              t_state := state;
              t_tax_rate := rate tax_rate;
              t_tax_amount := tax_amount;
              t_final_amount := final_amount;
              t_tax_description :=
                "Taxe de vente " ++ state ++ " ("
                  ++ float_repr (rate tax_rate) ++ "%)";
              t_calculation_details := calculation_details |}
    end.

(** [calculate_tax]: the body under its three [except] clauses, tried in
    the order of the source.  Whatever is raised, is raised before
    [amount] is rebound or carries no amount, so the handlers see the
    amount that was passed. *)
Definition calculate_tax (self : TaxCalculator) (amount : float)
    (state : string) : result tax_info :=
  try_except (calculate_tax_body self amount state) (fun e =>
    if is_ValueError e then
      Raise (CalculationError (py_str e)
               [("amount", VFloat amount); ("state", VStr state)])
    else if is_jurisdiction_error e then
      Raise e
    else
      Raise (CalculationError "Erreur inattendue lors du calcul de la taxe"
               [("amount", VFloat amount); ("state", VStr state);
                ("error", VStr (py_str e))])).

End Methods.

End Tax.

(** ** [app/price_calculator.py] *)

Module Pipeline.

Record PriceBreakdown := {
  subtotal : float;
  discount_percentage : float;
  discount_amount : float;
  price_after_discount : float;
  tax_rate : float;
  tax_amount : float;
  final_price : float;
  tax_description : string;
  calculation_steps : list string
}.

Record PriceCalculator := {
  tax_calculator : Tax.TaxCalculator;
  discount_calculator : Discount.DiscountCalculator;
  MAX_QUANTITY : Z;
  MAX_UNIT_PRICE : Z;
  MAX_TOTAL : Z
}.

(** [PriceCalculator.__init__]. *)
Definition init : PriceCalculator :=
  {| tax_calculator := Tax.init;
     discount_calculator := Discount.init;
     MAX_QUANTITY := 10000;
     MAX_UNIT_PRICE := 1000000;
     MAX_TOTAL := 10000000 |}.

(** The decimal digits of a non-negative integer, for the two limits
    printed in the messages. *)
Definition digit (n : Z) : string :=
  match n with
  | 0 => "0" | 1 => "1" | 2 => "2" | 3 => "3" | 4 => "4"
  | 5 => "5" | 6 => "6" | 7 => "7" | 8 => "8" | _ => "9"
  end.

Fixpoint digits_aux (fuel : nat) (n : Z) (acc : string) : string :=
  match fuel with
  | O => acc
  | S fuel' =>
      let acc' := digit (n mod 10) ++ acc in
      if (n / 10 =? 0)%Z then acc' else digits_aux fuel' (n / 10) acc'
  end.

Definition int_str (n : Z) : string :=
  if (n <? 0)%Z then "-" ++ digits_aux (Z.to_nat (Z.log2 (- n) + 1)) (- n) ""
  else digits_aux (Z.to_nat (Z.log2 n + 1)) n "".

(** [validate_inputs]: the five checks in the order of the source.  The
    product is only formed for [0 < quantity <= MAX_QUANTITY], where the
    conversion of [quantity] to a float is exact. *)
Definition validate_inputs (self : PriceCalculator) (quantity : Z)
    (unit_price : float) : result unit :=
  if (quantity <=? 0)%Z then
    Raise (ValueError "La quantité doit être un nombre positif")
  else if fle unit_price zero then
    Raise (ValueError "Le prix unitaire doit être un nombre positif")
  else if (quantity >? MAX_QUANTITY self)%Z then
    Raise (ValueError ("La quantité ne peut pas dépasser "
                         ++ int_str (MAX_QUANTITY self)))
  else if fgt unit_price (of_int (MAX_UNIT_PRICE self)) then
    Raise (ValueError ("Le prix unitaire ne peut pas dépasser "
                         ++ int_str (MAX_UNIT_PRICE self) ++ "€"))
  else
    let total := fmul (of_int quantity) unit_price in
    if fgt total (of_int (MAX_TOTAL self)) then
      Raise (ValueError "Le montant total ne peut pas dépasser 10 millions €")
    else Ok tt.

Section Methods.
Context `{Builtins}.

Definition calculate_final_price_body (self : PriceCalculator)
    (quantity : Z) (unit_price : float) (state : string)
    : result PriceBreakdown :=
  _ <- validate_inputs self quantity unit_price ;;
  let subtotal := round2 (fmul (of_int quantity) unit_price) in
  let discount_info :=
    Discount.calculate_discount (discount_calculator self) subtotal in
  let price_after_discount := Discount.d_final_amount discount_info in
  tax_info <- Tax.calculate_tax (tax_calculator self) price_after_discount state ;;
  Ok {| subtotal := subtotal;
        discount_percentage := Discount.d_discount_percentage discount_info;
        discount_amount := Discount.d_discount_amount discount_info;
        price_after_discount := price_after_discount;
        tax_rate := Tax.t_tax_rate tax_info;
        tax_amount := Tax.t_tax_amount tax_info;
        final_price := Tax.t_final_amount tax_info;
        tax_description := Tax.t_tax_description tax_info;
        calculation_steps := Tax.t_calculation_details tax_info |}.

(** [calculate_final_price]: [except ValueError] first, then
    [except Exception], which every other exception of the body
    matches, the jurisdiction errors included. *)
Definition calculate_final_price (self : PriceCalculator)
    (quantity : Z) (unit_price : float) (state : string)
    : result PriceBreakdown :=
  try_except (calculate_final_price_body self quantity unit_price state)
    (fun e =>
       if is_ValueError e then Raise (ValueError (py_str e))
       else
         Raise (CalculationError (py_str e)
                  [("quantity", VInt quantity);
                   ("unit_price", VFloat unit_price);
                   ("state", VStr state)])).

End Methods.

End Pipeline.

(** ** [app/models.py]: the validators of [ProductInput] *)

Module Models.

(** A name is a Python [str]: a sequence of code points.  Which code points
    are whitespace is the interpreter's table ([str.isspace]); [strip]
    removes them from both ends. *)
Section Strip.
Context {char : Type} (isspace : char -> bool).

Fixpoint lstrip (v : list char) : list char :=
  match v with
  | [] => []
  | c :: rest => if isspace c then lstrip rest else v
  end.

Definition rstrip (v : list char) : list char := rev (lstrip (rev v)).

Definition strip (v : list char) : list char := rstrip (lstrip v).

(** [validate_name]: [not v.strip()] holds exactly on the empty string. *)
Definition validate_name (v : list char) : result (list char) :=
  match strip v with
  | [] =>
      Raise (ValueError
               "Le nom du produit ne peut pas être vide ou contenir uniquement des espaces")
  | _ :: _ => Ok (strip v)
  end.

End Strip.

(** [validate_total_amount], on the two fields it reads; the instance is
    returned as it is. *)
Definition validate_total_amount (quantity : Z) (unit_price : float)
    : result unit :=
  let total := fmul (of_int quantity) unit_price in
  if fgt total (of_int 10000000) then
    Raise (ValueError
             "Le montant total (quantité × prix unitaire) ne peut pas dépasser 10 millions")
  else Ok tt.

End Models.

(** ** [app/main.py]: the [/calculate-total/] endpoint *)

Module Main.




End Main.

(** ** Reference built-ins for evaluation

    Concrete texts for the three built-ins, so that the pipeline can be run
    on inputs; no theorem below depends on the choice. *)
Definition plain_builtins : Builtins :=
  {| float_repr := fun _ => "<float>";
     http_exception_str := fun status_code detail => message detail;
     too_many_arguments :=
       "StateNotSupportedError.__init__() takes 2 positional arguments but 3 were given" |}.

(** ** Vocabulary of the properties *)

(** The claim C2 as it is stated: the final amount is the subtotal minus
    the rounded discount amount. *)
Definition final_is_subtotal_minus_amount : Prop :=
  forall (s : float) (rule : Discount.DiscountRule),
    fle zero s = true ->
    Discount.get_applicable_discount Discount.init s = Some rule ->
    let info := Discount.calculate_discount Discount.init s in
    Discount.d_discount_amount info
      = round2 (fmul s (fdiv (Discount.discount_percentage rule) (of_int 100)))
    /\ Discount.d_final_amount info = fsub s (Discount.d_discount_amount info).

(** The configured rules, by threshold. *)
Definition rule_at (i : nat) : Discount.DiscountRule :=
  nth i (Discount.discount_rules Discount.init)
    {| Discount.min_amount := zero; Discount.discount_percentage := zero;
       Discount.description := "" |}.

(** The reasons that [validate_inputs] gives under the configured limits. *)
Definition validation_messages : list string :=
  [ "La quantité doit être un nombre positif";
    "Le prix unitaire doit être un nombre positif";
    "La quantité ne peut pas dépasser 10000";
    "Le prix unitaire ne peut pas dépasser 1000000€";
    "Le montant total ne peut pas dépasser 10 millions €" ].

(** The inputs that the spec rejects. *)
Definition out_of_bounds (quantity : Z) (unit_price : float) : Prop :=
  quantity <= 0
  \/ quantity > 10000
  \/ fle unit_price zero = true
  \/ fgt unit_price (of_int 1000000) = true
  \/ fgt (fmul (of_int quantity) unit_price) (of_int 10000000) = true.

(** A tax calculator whose entry for CA is disabled. *)
Definition CA_disabled : Tax.TaxCalculator :=
  {| Tax.tax_rates := fun s =>
       match s with
       | Tax.CA =>
           Some {| Tax.rate := of_ratio 825 100;
                   Tax.description := "California Sales Tax";
                   Tax.enabled := false |}
       | _ => Tax.tax_rates Tax.init s
       end |}.

(** A tax calculator with no entry for CA. *)
Definition CA_absent : Tax.TaxCalculator :=
  {| Tax.tax_rates := fun s =>
       match s with
       | Tax.CA => None
       | _ => Tax.tax_rates Tax.init s
       end |}.

(** A rule table with two rules of the same percentage. *)
Definition tied_rules : Discount.DiscountCalculator :=
  {| Discount.discount_rules :=
       [ {| Discount.min_amount := of_int 100;
            Discount.discount_percentage := of_int 10;
            Discount.description := "A" |};
         {| Discount.min_amount := of_int 50;
            Discount.discount_percentage := of_int 10;
            Discount.description := "B" |};
         {| Discount.min_amount := of_int 300;
            Discount.discount_percentage := of_int 20;
            Discount.description := "C" |} ] |}.

(** [str.isspace] on the code points below 128: tab to carriage return,
    the four separators 28..31, and the space. *)
Definition ascii_isspace (c : Ascii.ascii) : bool :=
  let n := Z.of_nat (Ascii.nat_of_ascii c) in
  ((9 <=? n) && (n <=? 13) || (28 <=? n) && (n <=? 32))%Z%bool.

(** * Properties *)

(** ** The float model on known values *)

(** 8.25 is 33/4 and 100 is 25 * 4: both are read exactly. *)
Example literal_8_25 : of_ratio 825 100 = S754_finite false (33 * 2 ^ 47) (-49).
Proof. reflexivity. Qed.

Example literal_100 : of_int 100 = S754_finite false (25 * 2 ^ 48) (-46).
Proof. reflexivity. Qed.

(** 0.125 and 0.375 are exact in binary and halfway between two
    hundredths: [round] goes to the even one.  The double nearest to 2.675
    lies below 2.675, so it rounds down. *)
Example round2_tie_down : round2 (of_ratio 125 1000) = of_ratio 12 100.
Proof. vm_compute. reflexivity. Qed.

Example round2_tie_up : round2 (of_ratio 375 1000) = of_ratio 38 100.
Proof. vm_compute. reflexivity. Qed.

Example round2_2_675 : round2 (of_ratio 2675 1000) = of_ratio 267 100.
Proof. vm_compute. reflexivity. Qed.

Example round2_negative_zero : round2 (of_ratio (-1) 1000) = S754_zero true.
Proof. vm_compute. reflexivity. Qed.

(** ** Comparisons *)

Lemma fle_zero_not_flt (a : float) : fle zero a = true -> flt a zero = false.
Proof.
  destruct a as [s | s | | s m e]; try destruct s; cbn; congruence.
Qed.

Lemma not_fle_zero_not_flt (a : float) : fle a zero = false -> flt a zero = false.
Proof.
  destruct a as [s | s | | s m e]; try destruct s; cbn; congruence.
Qed.

Lemma SFcompare_antisym (x y : float) :
  SFcompare y x = option_map CompOpp (SFcompare x y).
Proof.
  destruct x as [[] | [] | | [] m e], y as [[] | [] | | [] m' e'];
    cbn; try reflexivity;
    rewrite (Z.compare_antisym e e'); destruct (e ?= e')%Z; cbn;
    try reflexivity;
    now rewrite (Pos.compare_cont_antisym m m' Eq).
Qed.

Lemma fle_not_fgt (x y : float) : fle x y = true -> fgt x y = false.
Proof.
  unfold fle, fgt, SFltb, SFleb; rewrite (SFcompare_antisym x y).
  now destruct (SFcompare x y) as [[] |].
Qed.

Lemma flt_not_fge (x y : float) : flt x y = true -> fge x y = false.
Proof.
  unfold flt, fge, SFltb, SFleb; rewrite (SFcompare_antisym x y).
  now destruct (SFcompare x y) as [[] |].
Qed.

Lemma fle_finite_exponent (m1 m2 : positive) (e1 e2 : Z) :
  fle (S754_finite false m1 e1) (S754_finite false m2 e2) = true -> e1 <= e2.
Proof.
  unfold fle, SFleb, SFcompare.
  destruct (Z.compare_spec e1 e2); try lia; discriminate.
Qed.

(** ** Floating-point rounding *)

Section Rounding.
Local Open Scope Z_scope.

(** *** Binary digits *)

Lemma digits2_pos_bounds (m : positive) :
  2 ^ (Zpos (digits2_pos m) - 1) <= Zpos m < 2 ^ Zpos (digits2_pos m).
Proof.
  induction m as [m IH | m IH |]; cbn [digits2_pos].
  - rewrite Pos2Z.inj_succ, (Pos2Z.inj_xI m).
    replace (Z.succ (Zpos (digits2_pos m)) - 1)
      with (Z.succ (Zpos (digits2_pos m) - 1)) by lia.
    rewrite !Z.pow_succ_r by lia.
    generalize dependent (2 ^ (Zpos (digits2_pos m) - 1)).
    generalize (2 ^ Zpos (digits2_pos m)). lia.
  - rewrite Pos2Z.inj_succ, (Pos2Z.inj_xO m).
    replace (Z.succ (Zpos (digits2_pos m)) - 1)
      with (Z.succ (Zpos (digits2_pos m) - 1)) by lia.
    rewrite !Z.pow_succ_r by lia.
    generalize dependent (2 ^ (Zpos (digits2_pos m) - 1)).
    generalize (2 ^ Zpos (digits2_pos m)). lia.
  - cbn. lia.
Qed.

Lemma Zdigits2_upper (m : Z) : 0 <= m -> m < 2 ^ Zdigits2 m.
Proof.
  destruct m as [| p | p]; cbn [Zdigits2]; [cbn; lia | | lia].
  intros _; apply digits2_pos_bounds.
Qed.

Lemma Zdigits2_le (m k : Z) : 0 <= m -> 0 <= k -> m < 2 ^ k -> Zdigits2 m <= k.
Proof.
  destruct m as [| p | p]; cbn [Zdigits2]; [lia | | lia].
  intros _ Hk Hlt.
  pose proof (digits2_pos_bounds p) as [Hlo _].
  assert (Hpow : 2 ^ (Zpos (digits2_pos p) - 1) < 2 ^ k) by lia.
  apply Z.pow_lt_mono_r_iff in Hpow; lia.
Qed.

Lemma Zdigits2_nonneg (m : Z) : 0 <= Zdigits2 m.
Proof. destruct m; cbn; lia. Qed.

(** *** Shifting right *)

Lemma shr_1_m (r : shr_record) :
  0 <= shr_m r -> shr_m (shr_1 r) = shr_m r / 2.
Proof.
  destruct r as [m rb sb]; cbn [shr_m shr_1].
  destruct m as [| [p | p |] | p]; cbn [shr_m]; intros Hm; try lia.
  - reflexivity.
  - rewrite (Pos2Z.inj_xI p). apply Z.div_unique with 1; lia.
  - rewrite (Pos2Z.inj_xO p). apply Z.div_unique with 0; lia.
  - reflexivity.
Qed.

Lemma iter_pos_shr_1 (p : positive) : forall r : shr_record,
  0 <= shr_m r -> shr_m (iter_pos shr_1 p r) = shr_m r / 2 ^ Zpos p.
Proof.
  induction p as [p IH | p IH |]; intros r Hr; cbn [iter_pos].
  - assert (H1 : 0 <= shr_m (shr_1 r)) by (rewrite shr_1_m by lia; apply Z.div_pos; lia).
    assert (H2 : 0 <= shr_m (iter_pos shr_1 p (shr_1 r)))
      by (rewrite IH by lia; apply Z.div_pos; [lia | apply Z.pow_pos_nonneg; lia]).
    rewrite IH, IH, shr_1_m by lia.
    rewrite !Z.div_div by (try apply Z.pow_pos_nonneg; lia).
    f_equal. replace (Zpos p~1) with (1 + Zpos p + Zpos p) by lia.
    rewrite !Z.pow_add_r by lia. change (2 ^ 1) with 2. ring.
  - assert (H2 : 0 <= shr_m (iter_pos shr_1 p r))
      by (rewrite IH by lia; apply Z.div_pos; [lia | apply Z.pow_pos_nonneg; lia]).
    rewrite IH, IH by lia.
    rewrite !Z.div_div by (try apply Z.pow_pos_nonneg; lia).
    f_equal. replace (Zpos p~0) with (Zpos p + Zpos p) by lia.
    rewrite !Z.pow_add_r by lia. ring.
  - rewrite shr_1_m by lia. reflexivity.
Qed.

Lemma shr_spec (r : shr_record) (e n : Z) :
  0 <= shr_m r ->
  shr_m (fst (shr r e n)) = shr_m r / 2 ^ Z.max n 0
  /\ snd (shr r e n) = e + Z.max n 0.
Proof.
  intros Hr; destruct n as [| p | p]; cbn [shr fst snd].
  - cbn. rewrite Z.div_1_r. lia.
  - rewrite iter_pos_shr_1 by lia.
    replace (Z.max (Zpos p) 0) with (Zpos p) by lia. lia.
  - replace (Z.max (Zneg p) 0) with 0 by lia.
    cbn. rewrite Z.div_1_r. lia.
Qed.

Lemma shr_record_of_loc_m (m : Z) (l : location) :
  shr_m (shr_record_of_loc m l) = m.
Proof. destruct l as [| []]; reflexivity. Qed.

(** *** Rounding to the format *)

Lemma fexp_lower (e : Z) : e - 53 <= fexp prec emax e /\ -1074 <= fexp prec emax e.
Proof. unfold fexp, emin, prec, emax; lia. Qed.

Lemma shr_fexp_spec (m e : Z) (l : location) :
  0 <= m ->
  let n := Z.max (fexp prec emax (Zdigits2 m + e) - e) 0 in
  shr_m (fst (shr_fexp prec emax m e l)) = m / 2 ^ n
  /\ snd (shr_fexp prec emax m e l) = e + n.
Proof.
  intros Hm n; unfold shr_fexp.
  pose proof (shr_spec (shr_record_of_loc m l) e
                (fexp prec emax (Zdigits2 m + e) - e)) as Hs.
  rewrite shr_record_of_loc_m in Hs. now apply Hs.
Qed.

(** After the shift the mantissa fits in 53 bits. *)
Lemma shifted_lt_pow (m e : Z) :
  0 <= m ->
  m / 2 ^ Z.max (fexp prec emax (Zdigits2 m + e) - e) 0 < 2 ^ 53.
Proof.
  intros Hm.
  set (n := Z.max (fexp prec emax (Zdigits2 m + e) - e) 0).
  assert (Hn : 0 <= n) by lia.
  assert (Hd : Zdigits2 m <= 53 + n)
    by (pose proof (fexp_lower (Zdigits2 m + e)); lia).
  apply Z.div_lt_upper_bound; [apply Z.pow_pos_nonneg; lia|].
  rewrite <- Z.pow_add_r by lia.
  apply Z.lt_le_trans with (2 ^ Zdigits2 m); [now apply Zdigits2_upper|].
  apply Z.pow_le_mono_r; lia.
Qed.

Lemma round_nearest_even_bounds (m : Z) (l : location) :
  m <= round_nearest_even m l <= m + 1.
Proof. destruct l as [| []]; cbn; try destruct (Z.even m); lia. Qed.

(** The result of rounding [mx * 2 ^ ex]: its shape, the size of its
    mantissa and where its exponent lies. *)
Lemma binary_round_aux_spec (sx : bool) (mx ex : Z) (lx : location) :
  0 <= mx ->
  let n := Z.max (fexp prec emax (Zdigits2 mx + ex) - ex) 0 in
  exists m3 e3,
    binary_round_aux prec emax sx mx ex lx
    = match m3 with
      | Z0 => S754_zero sx
      | Zpos m => if e3 <=? 971 then S754_finite sx m e3 else S754_infinity sx
      | Zneg _ => S754_nan
      end
    /\ 0 <= m3 < 2 ^ 53
    /\ ex + n <= e3 <= ex + n + 1
    /\ m3 * 2 ^ (e3 - (ex + n)) <= 2 ^ 53.
Proof.
  intros Hmx n; unfold binary_round_aux.
  destruct (shr_fexp_spec mx ex lx Hmx) as [Hm1 He1]; fold n in Hm1, He1.
  destruct (shr_fexp prec emax mx ex lx) as [mrs1 e1]; cbn [fst snd] in Hm1, He1.
  pose proof (shifted_lt_pow mx ex Hmx) as Hlt1; fold n in Hlt1.
  assert (Hm1pos : 0 <= shr_m mrs1)
    by (rewrite Hm1; apply Z.div_pos; [lia | apply Z.pow_pos_nonneg; lia]).
  set (m2 := round_nearest_even (shr_m mrs1) (loc_of_shr_record mrs1)).
  pose proof (round_nearest_even_bounds (shr_m mrs1) (loc_of_shr_record mrs1))
    as Hm2; fold m2 in Hm2.
  assert (Hm2pos : 0 <= m2) by lia.
  assert (Hm2le : m2 <= 2 ^ 53) by lia.
  destruct (shr_fexp_spec m2 e1 loc_Exact Hm2pos) as [Hm3 He3].
  pose proof (shifted_lt_pow m2 e1 Hm2pos) as Hlt3.
  set (n2 := Z.max (fexp prec emax (Zdigits2 m2 + e1) - e1) 0) in *.
  destruct (shr_fexp prec emax m2 e1 loc_Exact) as [mrs3 e3];
    cbn [fst snd] in Hm3, He3.
  assert (Hn2 : 0 <= n2 <= 1).
  { split; [lia|].
    assert (Hd2 : Zdigits2 m2 <= 54)
      by (apply Zdigits2_le; [lia | lia | change (2 ^ 54) with (2 * 2 ^ 53); lia]).
    pose proof (fexp_lower (Zdigits2 mx + ex)).
    unfold n2, fexp, emin, prec, emax. subst e1. lia. }
  exists (shr_m mrs3), e3; split; [reflexivity|].
  rewrite Hm3; split; [|split].
  - split; [apply Z.div_pos; [lia | apply Z.pow_pos_nonneg; lia] | exact Hlt3].
  - lia.
  - replace (e3 - (ex + n)) with n2 by lia.
    apply Z.le_trans with m2; [|exact Hm2le].
    rewrite Z.mul_comm; apply Z.mul_div_le, Z.pow_pos_nonneg; lia.
Qed.

(** Rounding keeps the sign: the result is never below zero when the sign
    bit is clear. *)
Lemma binary_round_aux_nonneg (mx ex : Z) (lx : location) :
  0 <= mx -> flt (binary_round_aux prec emax false mx ex lx) zero = false.
Proof.
  intros Hmx.
  destruct (binary_round_aux_spec false mx ex lx Hmx) as (m3 & e3 & -> & Hm3 & _).
  destruct m3 as [| m | m]; [reflexivity | | lia].
  now destruct (e3 <=? 971).
Qed.

Lemma binary_round_aux_finite (sx : bool) (mx ex : Z) (lx : location)
    (s : bool) (m : positive) (e : Z) :
  0 <= mx ->
  binary_round_aux prec emax sx mx ex lx = S754_finite s m e ->
  s = sx /\ Zpos m < 2 ^ 53 /\ e <= 971.
Proof.
  intros Hmx Hr.
  destruct (binary_round_aux_spec sx mx ex lx Hmx) as (m3 & e3 & Heq & Hm3 & _).
  rewrite Heq in Hr.
  destruct m3 as [| m' | m']; try discriminate.
  destruct (Z.leb_spec e3 971); [|discriminate].
  injection Hr as <- <- <-. repeat split; [lia | assumption].
Qed.

(** *** Signs of the operations *)

Lemma Pos_iter_xO (d m : positive) :
  Zpos (Pos.iter xO m d) = Zpos m * 2 ^ Zpos d.
Proof.
  induction d as [| d IH] using Pos.peano_ind.
  - cbn [Pos.iter]. rewrite (Pos2Z.inj_xO m). change (2 ^ 1) with 2. lia.
  - rewrite Pos.iter_succ, (Pos2Z.inj_xO (Pos.iter xO m d)), IH.
    rewrite Pos2Z.inj_succ, Z.pow_succ_r by lia. ring.
Qed.

Lemma shl_align_spec (m : positive) (e e' : Z) :
  e' <= e -> Zpos (fst (shl_align m e e')) = Zpos m * 2 ^ (e - e').
Proof.
  intros He; unfold shl_align.
  destruct (e' - e) as [| d | d] eqn:Hd; cbn [fst]; try lia.
  - replace (e - e') with 0 by lia. cbn. lia.
  - rewrite Pos_iter_xO. f_equal. f_equal. lia.
Qed.

Lemma binary_round_nonneg (m : positive) (e : Z) :
  flt (binary_round prec emax false m e) zero = false.
Proof.
  unfold binary_round.
  destruct (shl_align m e _) as [mz ez].
  apply binary_round_aux_nonneg; lia.
Qed.

Lemma binary_normalize_nonneg (m e : Z) :
  0 <= m -> flt (binary_normalize prec emax m e false) zero = false.
Proof.
  destruct m as [| p | p]; intros Hm; cbn [binary_normalize];
    [reflexivity | apply binary_round_nonneg | lia].
Qed.

Lemma of_int_nonneg (n : Z) : 0 <= n -> flt (of_int n) zero = false.
Proof. apply binary_normalize_nonneg. Qed.

Lemma fmul_nonneg (a b : float) :
  flt a zero = false -> flt b zero = false -> flt (fmul a b) zero = false.
Proof.
  destruct a as [[] | [] | | [] ma ea], b as [[] | [] | | [] mb eb];
    cbn; try congruence; intros _ _.
  apply binary_round_aux_nonneg; lia.
Qed.

Lemma SFdiv_core_binary_nonneg (m1 m2 : positive) (e1 e2 : Z) :
  0 <= fst (fst (SFdiv_core_binary prec emax (Zpos m1) e1 (Zpos m2) e2)).
Proof.
  unfold SFdiv_core_binary.
  set (s := _ - _ - _).
  set (m' := match s with Zpos _ => _ | Z0 => _ | Zneg _ => _ end).
  assert (Hm' : 0 <= m').
  { subst m'; destruct s; try lia. apply Z.shiftl_nonneg; lia. }
  pose proof (Z.div_pos m' (Zpos m2) Hm' ltac:(lia)) as Hq.
  unfold Z.div in Hq.
  destruct (Z.div_eucl m' (Zpos m2)) as [q r]; exact Hq.
Qed.

Lemma fdiv_finite_nonneg (m1 m2 : positive) (e1 e2 : Z) :
  flt (fdiv (S754_finite false m1 e1) (S754_finite false m2 e2)) zero = false.
Proof.
  unfold fdiv; cbn [SFdiv xorb].
  pose proof (SFdiv_core_binary_nonneg m1 m2 e1 e2) as Hq.
  destruct (SFdiv_core_binary _ _ _ _ _ _) as [[mz ez] lz]; cbn [fst] in Hq.
  now apply binary_round_aux_nonneg.
Qed.

Lemma round2_nonneg (x : float) :
  flt x zero = false -> flt (round2 x) zero = false.
Proof.
  destruct x as [s | s | | [] m e]; cbn [round2]; try (intros H; exact H).
  - cbn; discriminate.
  - intros _. destruct (hundredths m e); try reflexivity.
    apply fdiv_finite_nonneg.
Qed.

(** A finite result of [round2] is a double: 53 bits, exponent in range. *)
Lemma round2_finite (x : float) (s : bool) (m : positive) (e : Z) :
  round2 x = S754_finite s m e -> Zpos m < 2 ^ 53 /\ e <= 971.
Proof.
  destruct x as [sx | sx | | sx mx ex]; cbn [round2]; try discriminate.
  destruct (hundredths mx ex) as [| n | n]; try discriminate.
  unfold fdiv; cbn [SFdiv].
  pose proof (SFdiv_core_binary_nonneg n 100 0 0) as Hq.
  destruct (SFdiv_core_binary _ _ _ _ _ _) as [[mz ez] lz]; cbn [fst] in Hq.
  intros Hr; now apply binary_round_aux_finite in Hr.
Qed.

(** *** A discount never exceeds its subtotal *)

(** For a double [s] that is not tiny and a factor [c] below one quarter,
    [s - s * c] is not negative: the rounded product stays below [s]. *)
Lemma fsub_fmul_nonneg (ms mc : positive) (es ec : Z) :
  Zpos ms < 2 ^ 53 -> es <= 971 ->
  Zpos mc < 2 ^ 53 -> ec <= -55 ->
  -1074 <= es + ec ->
  let s := S754_finite false ms es in
  let c := S754_finite false mc ec in
  flt (fsub s (fmul s c)) zero = false.
Proof.
  intros Hms Hes Hmc Hec Hex s c.
  unfold fmul, s, c; cbn [SFmul xorb].
  set (mx := Zpos (ms * mc)); set (ex := es + ec).
  destruct (binary_round_aux_spec false mx ex loc_Exact ltac:(subst mx; lia))
    as (m3 & e3 & -> & Hm3 & He3 & Hval).
  set (d := Zdigits2 mx) in *.
  set (dms := Zpos (digits2_pos ms)).
  pose proof (digits2_pos_bounds ms) as [Hlo Hhi]; fold dms in Hlo, Hhi.
  assert (Hdms : 1 <= dms <= 53).
  { split; [subst dms; lia|].
    apply (Zdigits2_le (Zpos ms)); lia. }
  assert (H2dms : 2 ^ dms <= 2 * Zpos ms).
  { replace dms with (Z.succ (dms - 1)) by lia.
    rewrite Z.pow_succ_r by lia. lia. }
  assert (Hd : 0 <= d <= dms + 53).
  { split; [apply Zdigits2_nonneg|].
    apply Zdigits2_le; [subst mx; lia | lia |].
    rewrite Z.pow_add_r by lia. subst mx. rewrite Pos2Z.inj_mul.
    apply Z.mul_lt_mono_nonneg; lia. }
  assert (Hn : Z.max (fexp prec emax (d + ex) - ex) 0 = Z.max (d - 53) 0)
    by (unfold fexp, emin, prec, emax; subst ex; lia).
  rewrite Hn in He3, Hval.
  set (n := Z.max (d - 53) 0) in *.
  assert (Hn53 : 0 <= n <= 53) by lia.
  assert (H2n : 2 ^ (53 + n) <= Zpos ms * 2 ^ 54).
  { apply Z.le_trans with (2 ^ (dms + 53)).
    - apply Z.pow_le_mono_r; lia.
    - rewrite Z.pow_add_r by lia.
      change (2 ^ 54) with (2 * 2 ^ 53).
      assert (0 < 2 ^ 53) by (apply Z.pow_pos_nonneg; lia). nia. }
  destruct m3 as [| m | m]; [cbn; reflexivity | | lia].
  destruct (Z.leb_spec e3 971) as [_ | Hover]; [|subst ex; lia].
  unfold fsub; cbn [SFsub cond_Zopp].
  apply binary_normalize_nonneg.
  set (ez := Z.min es e3).
  rewrite (shl_align_spec ms es ez), (shl_align_spec m e3 ez) by lia.
  set (u := ex + n) in *.
  assert (Hu : u <= ez) by (subst u ex ez; lia).
  assert (Hpu : 0 < 2 ^ (ez - u)) by (apply Z.pow_pos_nonneg; lia).
  assert (Hy : Zpos m * 2 ^ (e3 - ez) * 2 ^ (ez - u) <= 2 ^ 53).
  { rewrite <- Z.mul_assoc, <- Z.pow_add_r by lia.
    now replace (e3 - ez + (ez - u)) with (e3 - u) by lia. }
  assert (Hs : 2 ^ 53 <= Zpos ms * 2 ^ (es - ez) * 2 ^ (ez - u)).
  { rewrite <- Z.mul_assoc, <- Z.pow_add_r by lia.
    replace (es - ez + (ez - u)) with (es - u) by lia.
    assert (Hpn : 0 < 2 ^ n) by (apply Z.pow_pos_nonneg; lia).
    apply (Z.mul_le_mono_pos_r _ _ (2 ^ n) Hpn).
    rewrite <- Z.pow_add_r, <- Z.mul_assoc, <- Z.pow_add_r by (subst u ex; lia).
    replace (es - u + n) with (- ec) by (subst u ex; lia).
    apply Z.le_trans with (Zpos ms * 2 ^ 54); [exact H2n|].
    apply Z.mul_le_mono_nonneg_l; [lia|].
    apply Z.pow_le_mono_r; lia. }
  assert (Hle : Zpos m * 2 ^ (e3 - ez) <= Zpos ms * 2 ^ (es - ez)).
  { apply (Z.mul_le_mono_pos_r _ _ (2 ^ (ez - u)) Hpu). lia. }
  lia.
Qed.

End Rounding.

(** ** The tax engine *)

Section TaxProperties.
Context `{Builtins}.
Import Tax.

(** The known codes are the five values, and no other string. *)
Lemma value2member_outside (state : string) :
  ~ In state ["UT"; "NV"; "TX"; "AL"; "CA"] -> value2member state = None.
Proof.
  intros Hout; unfold value2member, members; cbn [find value].
  repeat match goal with
         | |- context [String.eqb ?c state] =>
             destruct (String.eqb_spec c state) as [Heq | _];
             [exfalso; apply Hout; rewrite <- Heq; cbn; tauto|]
         end.
  reflexivity.
Qed.

(** An unknown code: [validate_state] raises [InvalidStateError] with the
    code and the five valid codes. *)
Lemma validate_state_unknown (self : TaxCalculator) (state : string) :
  value2member state = None ->
  validate_state self state = Raise (InvalidStateError state list_states).
Proof.
  intros Hv; unfold validate_state, is_valid_state; now rewrite Hv.
Qed.

(** A known code whose entry is absent: [StateNotSupportedError]. *)
Lemma validate_state_absent (self : TaxCalculator) (state : string) (st : State) :
  value2member state = Some st ->
  tax_rates self st = None ->
  validate_state self state = Raise (StateNotSupportedError state).
Proof.
  intros Hv Hr; unfold validate_state, is_valid_state, State_of.
  rewrite Hv; cbn; now rewrite Hr.
Qed.

(** A known code whose entry is disabled: the call that builds the error
    fails, and what is raised is that [TypeError]. *)
Lemma validate_state_disabled (self : TaxCalculator) (state : string)
    (st : State) (r : TaxRate) :
  value2member state = Some st ->
  tax_rates self st = Some r ->
  enabled r = false ->
  validate_state self state = Raise (TypeError too_many_arguments).
Proof.
  intros Hv Hr He; unfold validate_state, is_valid_state, State_of.
  rewrite Hv; cbn; now rewrite Hr, He.
Qed.

Lemma validate_state_enabled (self : TaxCalculator) (state : string)
    (st : State) (r : TaxRate) :
  value2member state = Some st ->
  tax_rates self st = Some r ->
  enabled r = true ->
  validate_state self state = Ok st.
Proof.
  intros Hv Hr He; unfold validate_state, is_valid_state, State_of.
  rewrite Hv; cbn; now rewrite Hr, He.
Qed.

(** [calculate_tax] lets the jurisdiction errors through and turns every
    other exception into a [CalculationError]: it never raises
    [ValueError] or [TypeError]. *)
Lemma calculate_tax_raises (self : TaxCalculator) (amount : float)
    (state : string) (e : exn) :
  calculate_tax self amount state = Raise e ->
  is_jurisdiction_error e = true \/ is_CalculationError e = true.
Proof.
  unfold calculate_tax, try_except.
  destruct (calculate_tax_body self amount state) as [info | e0]; [discriminate|].
  destruct (is_ValueError e0); [intros [= <-]; now right|].
  destruct (is_jurisdiction_error e0) eqn:Hj; intros [= <-]; [now left | now right].
Qed.

Lemma calculate_tax_not_ValueError (self : TaxCalculator) (amount : float)
    (state : string) (e : exn) :
  calculate_tax self amount state = Raise e -> is_ValueError e = false.
Proof.
  intros Hr; apply calculate_tax_raises in Hr as [Hj | Hc];
    destruct e; cbn in *; congruence.
Qed.

(** The successful run, under the guard of the source ([amount < 0] is
    false). *)
Lemma calculate_tax_ok (self : TaxCalculator) (amount : float)
    (state : string) (st : State) (r : TaxRate) :
  value2member state = Some st ->
  tax_rates self st = Some r ->
  enabled r = true ->
  flt amount zero = false ->
  exists info,
    calculate_tax self amount state = Ok info
    /\ t_original_amount info = round2 amount
    /\ t_tax_rate info = rate r
    /\ t_tax_amount info
       = round2 (fmul (round2 amount) (fdiv (rate r) (of_int 100)))
    /\ t_final_amount info
       = round2 (fadd (round2 amount) (t_tax_amount info)).
Proof.
  intros Hv Hr He Ha.
  unfold calculate_tax, calculate_tax_body, try_except.
  rewrite (validate_state_enabled self state st r Hv Hr He); cbn.
  rewrite Ha; unfold get_tax_rate; rewrite Hr.
  eexists; split; [reflexivity|]; cbn; auto.
Qed.

(** C4.  For a non-negative amount and a known, enabled jurisdiction,
    [calculate_tax] returns; the amount it reports is the input rounded
    to two decimals; the tax is that rounded amount times [rate / 100],
    rounded to two decimals; the final amount is the rounded amount plus
    the rounded tax, rounded to two decimals. *)
Theorem calculate_tax_rounding_order (self : TaxCalculator) (amount : float)
    (state : string) (st : State) (r : TaxRate) :
  value2member state = Some st ->
  tax_rates self st = Some r ->
  enabled r = true ->
  fle zero amount = true ->
  exists info,
    calculate_tax self amount state = Ok info
    /\ t_original_amount info = round2 amount
    /\ t_tax_rate info = rate r
    /\ t_tax_amount info
       = round2 (fmul (t_original_amount info) (fdiv (rate r) (of_int 100)))
    /\ t_final_amount info
       = round2 (fadd (t_original_amount info) (t_tax_amount info)).
Proof.
  intros Hv Hr He Ha.
  destruct (calculate_tax_ok self amount state st r Hv Hr He
              (fle_zero_not_flt amount Ha))
    as (info & Hok & Ho & Hrate & Ht & Hf).
  exists info; rewrite Ho; auto.
Qed.

(** C8.  For a negative amount and a known, enabled jurisdiction,
    [calculate_tax] raises a [CalculationError] whose detail is the
    negative-amount message and whose data are the amount passed and the
    code; its message says so, and it is not a jurisdiction error. *)
Theorem calculate_tax_negative_amount (self : TaxCalculator) (amount : float)
    (state : string) (st : State) (r : TaxRate) :
  value2member state = Some st ->
  tax_rates self st = Some r ->
  enabled r = true ->
  flt amount zero = true ->
  let e := CalculationError "Le montant ne peut pas être négatif"
             [("amount", VFloat amount); ("state", VStr state)] in
  calculate_tax self amount state = Raise e
  /\ is_jurisdiction_error e = false
  /\ option_map (fun sd => message (snd sd)) (http_fields e)
     = Some "Erreur lors du calcul : Le montant ne peut pas être négatif".
Proof.
  intros Hv Hr He Ha e.
  unfold calculate_tax, calculate_tax_body, try_except.
  rewrite (validate_state_enabled self state st r Hv Hr He); cbn.
  rewrite Ha; cbn; auto.
Qed.

End TaxProperties.

(** ** The discount engine *)

Section DiscountProperties.
Import Discount.

(** What [calculate_discount] returns when a rule applies: both amounts
    are rounded from the unrounded discount. *)
Lemma calculate_discount_some (self : DiscountCalculator) (s : float)
    (rule : DiscountRule) :
  get_applicable_discount self s = Some rule ->
  let unrounded := fmul s (fdiv (discount_percentage rule) (of_int 100)) in
  calculate_discount self s =
    {| d_original_amount := s;
       d_discount_percentage := discount_percentage rule;
       d_discount_amount := round2 unrounded;
       d_final_amount := round2 (fsub s unrounded);
       d_discount_description := description rule |}.
Proof. intros Hg; unfold calculate_discount; now rewrite Hg. Qed.

Lemma calculate_discount_none (self : DiscountCalculator) (s : float) :
  get_applicable_discount self s = None ->
  calculate_discount self s =
    {| d_original_amount := s;
       d_discount_percentage := zero;
       d_discount_amount := zero;
       d_final_amount := s;
       d_discount_description := "Aucune remise applicable" |}.
Proof. intros Hg; unfold calculate_discount; now rewrite Hg. Qed.

(** C2, as amended.  When a rule applies, the discount amount is
    [subtotal * (percentage / 100)] rounded to two decimals, and the final
    amount is [subtotal] minus the unrounded discount, rounded to two
    decimals. *)
Theorem calculate_discount_amounts (self : DiscountCalculator) (s : float)
    (rule : DiscountRule) :
  fle zero s = true ->
  get_applicable_discount self s = Some rule ->
  let info := calculate_discount self s in
  let unrounded := fmul s (fdiv (discount_percentage rule) (of_int 100)) in
  d_discount_percentage info = discount_percentage rule
  /\ d_discount_amount info = round2 unrounded
  /\ d_final_amount info = round2 (fsub s unrounded).
Proof.
  intros _ Hg info unrounded; subst info.
  rewrite (calculate_discount_some self s rule Hg); cbn; auto.
Qed.

(** The sixteen outcomes of the four threshold tests, for a subtotal of
    any value. *)
Lemma applicable_rules_init (s : float) :
  applicable_rules init s =
    ((if fge s (of_int 100) then [rule_at 0] else [])
     ++ (if fge s (of_int 500) then [rule_at 1] else [])
     ++ (if fge s (of_int 1000) then [rule_at 2] else [])
     ++ (if fge s (of_int 5000) then [rule_at 3] else []))%list.
Proof.
  unfold applicable_rules; cbn [init discount_rules filter min_amount].
  destruct (fge s (of_int 100)), (fge s (of_int 500)),
    (fge s (of_int 1000)), (fge s (of_int 5000)); reflexivity.
Qed.

Lemma In_rules_init (rule : DiscountRule) :
  In rule (discount_rules init) ->
  rule = rule_at 0 \/ rule = rule_at 1 \/ rule = rule_at 2 \/ rule = rule_at 3.
Proof. cbn; intuition auto. Qed.

(** Case analysis on a hypothesis [H : In rule (discount_rules init)]. *)
Ltac each_rule H :=
  apply In_rules_init in H; destruct H as [-> | [-> | [-> | ->]]].

(** C5.  On the configured rules and for a subtotal of any value: when
    some rule is eligible, [get_applicable_discount] returns a configured
    rule whose minimum is at most the subtotal and no eligible rule has a
    strictly higher percentage; when the subtotal is below every minimum
    it returns none, and [calculate_discount] reports percentage 0 and
    amount 0. *)
Theorem get_applicable_discount_best (s : float) :
  ((exists rule, In rule (discount_rules init)
                 /\ fle (min_amount rule) s = true) ->
   exists best,
     get_applicable_discount init s = Some best
     /\ In best (discount_rules init)
     /\ fle (min_amount best) s = true
     /\ forall rule,
          In rule (discount_rules init) ->
          fle (min_amount rule) s = true ->
          flt (discount_percentage best) (discount_percentage rule) = false)
  /\ ((forall rule, In rule (discount_rules init) ->
                    flt s (min_amount rule) = true) ->
      get_applicable_discount init s = None
      /\ d_discount_percentage (calculate_discount init s) = zero
      /\ d_discount_amount (calculate_discount init s) = zero).
Proof.
  split.
  - intros (rule & Hin & Hle).
    unfold get_applicable_discount; rewrite applicable_rules_init.
    assert (Hcase :
              fge s (of_int 100) = true \/ fge s (of_int 500) = true
              \/ fge s (of_int 1000) = true \/ fge s (of_int 5000) = true).
    { each_rule Hin; cbn in Hle; unfold fge; tauto. }
    destruct (fge s (of_int 100)) eqn:H1, (fge s (of_int 500)) eqn:H2,
      (fge s (of_int 1000)) eqn:H3, (fge s (of_int 5000)) eqn:H4;
      try (exfalso; clear - Hcase; intuition discriminate);
      cbn [app];
      match goal with
      | |- context [Some (max_by ?k ?b ?l)] =>
          let v := eval vm_compute in (max_by k b l) in
          change (max_by k b l) with v
      end;
      (eexists; split; [reflexivity|]; split; [vm_compute; tauto|]; split;
       [first [exact H1 | exact H2 | exact H3 | exact H4]|]);
      intros r' Hr' Hle'; each_rule Hr';
      first [ vm_compute; reflexivity
            | exfalso;
              first [ change (fge s (of_int 100) = true) in Hle'
                    | change (fge s (of_int 500) = true) in Hle'
                    | change (fge s (of_int 1000) = true) in Hle'
                    | change (fge s (of_int 5000) = true) in Hle' ];
              congruence ].
  - intros Hall.
    assert (Hnone : get_applicable_discount init s = None).
    { unfold get_applicable_discount; rewrite applicable_rules_init.
      assert (Hbelow : forall i, (i < 4)%nat ->
                                 fge s (min_amount (rule_at i)) = false).
      { intros i Hi; apply flt_not_fge, Hall.
        do 4 (destruct i as [|i]; [cbn; tauto|]); lia. }
      change (of_int 100) with (min_amount (rule_at 0)).
      change (of_int 500) with (min_amount (rule_at 1)).
      change (of_int 1000) with (min_amount (rule_at 2)).
      change (of_int 5000) with (min_amount (rule_at 3)).
      now rewrite !Hbelow by lia. }
    rewrite (calculate_discount_none init s Hnone); cbn; auto.
Qed.

Lemma max_by_In {A : Type} (key : A -> float) (items : list A) : forall best,
  In (max_by key best items) (best :: items).
Proof.
  induction items as [| x rest IH]; intros best; cbn [max_by]; [now left|].
  specialize (IH (if fgt (key x) (key best) then x else best)).
  destruct (fgt (key x) (key best)); cbn in *; tauto.
Qed.

(** The rule that [get_applicable_discount] returns is a configured rule
    whose minimum the amount reaches. *)
Lemma get_applicable_discount_eligible (self : DiscountCalculator)
    (s : float) (rule : DiscountRule) :
  get_applicable_discount self s = Some rule ->
  In rule (discount_rules self) /\ fge s (min_amount rule) = true.
Proof.
  unfold get_applicable_discount.
  destruct (applicable_rules self s) as [| r rest] eqn:Ha; [discriminate|].
  intros [= <-].
  pose proof (max_by_In discount_percentage rest r) as Hin.
  rewrite <- Ha in Hin; unfold applicable_rules in Hin.
  now apply filter_In in Hin.
Qed.

(** The price after discount is never below zero, for a subtotal that is
    not and that is a double when it is finite. *)
Lemma calculate_discount_final_nonneg (s : float) :
  flt s zero = false ->
  (forall sg m e, s = S754_finite sg m e -> Zpos m < 2 ^ 53 /\ e <= 971) ->
  flt (d_final_amount (calculate_discount init s)) zero = false.
Proof.
  intros Hs Hfin.
  destruct (get_applicable_discount init s) as [rule |] eqn:Hg.
  - rewrite (calculate_discount_some init s rule Hg); cbn [d_final_amount].
    apply round2_nonneg.
    apply get_applicable_discount_eligible in Hg as [Hin Hge].
    destruct s as [sg | [] | | [] ms es]; try discriminate.
    + exfalso; each_rule Hin; destruct sg; discriminate.
    + each_rule Hin; reflexivity.
    + exfalso; each_rule Hin; discriminate.
    + destruct (Hfin _ _ _ eq_refl) as [Hms Hes].
      assert (Hlow : -46 <= es).
      { each_rule Hin;
          match type of Hge with
          | fge ?x ?y = true =>
              let v := eval vm_compute in y in
              change (fle v x = true) in Hge
          end;
          apply fle_finite_exponent in Hge; lia. }
      each_rule Hin;
        match goal with
        | |- context [fdiv ?p ?h] =>
            let c := eval vm_compute in (fdiv p h) in
            change (fdiv p h) with c
        end;
        apply fsub_fmul_nonneg; try assumption; try lia; reflexivity.
  - now rewrite (calculate_discount_none init s Hg).
Qed.

End DiscountProperties.

(** ** The pipeline *)

Section PipelineProperties.
Context `{Builtins}.
Import Pipeline.

Lemma validate_inputs_raises (quantity : Z) (unit_price : float) (e : exn) :
  validate_inputs init quantity unit_price = Raise e ->
  exists msg, e = ValueError msg /\ In msg validation_messages.
Proof.
  unfold validate_inputs; cbn [init MAX_QUANTITY MAX_UNIT_PRICE MAX_TOTAL].
  destruct (quantity <=? 0)%Z; [intros [= <-]; eexists; split; [reflexivity | cbn; tauto]|].
  destruct (fle unit_price zero); [intros [= <-]; eexists; split; [reflexivity | cbn; tauto]|].
  destruct (quantity >? 10000)%Z; [intros [= <-]; eexists; split; [reflexivity | vm_compute; tauto]|].
  destruct (fgt unit_price (of_int 1000000)); [intros [= <-]; eexists; split; [reflexivity | vm_compute; tauto]|].
  destruct (fgt _ (of_int 10000000)); [intros [= <-]; eexists; split; [reflexivity | cbn; tauto]|].
  discriminate.
Qed.

Lemma validate_inputs_ok (quantity : Z) (unit_price : float) :
  validate_inputs init quantity unit_price = Ok tt
  <-> ~ out_of_bounds quantity unit_price.
Proof.
  unfold validate_inputs, out_of_bounds;
    cbn [init MAX_QUANTITY MAX_UNIT_PRICE MAX_TOTAL].
  destruct (Z.leb_spec quantity 0);
    [split; [discriminate | intros Hn; exfalso; apply Hn; auto]|].
  destruct (fle unit_price zero);
    [split; [discriminate | intros Hn; exfalso; apply Hn; auto]|].
  destruct (Z.gtb_spec quantity 10000);
    [split; [discriminate | intros Hn; exfalso; apply Hn; right; left; lia]|].
  destruct (fgt unit_price (of_int 1000000));
    [split; [discriminate | intros Hn; exfalso; apply Hn; auto]|].
  destruct (fgt _ (of_int 10000000));
    [split; [discriminate | intros Hn; exfalso; apply Hn; tauto]|].
  split; [|reflexivity].
  intros _ [Hq | [Hq | [Hp | [Hp | Ht]]]]; try lia; discriminate.
Qed.

Lemma validate_inputs_cases (quantity : Z) (unit_price : float) :
  validate_inputs init quantity unit_price = Ok tt
  \/ exists msg, validate_inputs init quantity unit_price = Raise (ValueError msg)
                 /\ In msg validation_messages.
Proof.
  destruct (validate_inputs init quantity unit_price) as [[] | e] eqn:Hv;
    [now left | right].
  destruct (validate_inputs_raises _ _ _ Hv) as (msg & -> & Hin); eauto.
Qed.

(** A failed validation surfaces as the [ValueError] it raised. *)
Lemma calculate_final_price_invalid (self : PriceCalculator) (quantity : Z)
    (unit_price : float) (state msg : string) :
  validate_inputs self quantity unit_price = Raise (ValueError msg) ->
  calculate_final_price self quantity unit_price state = Raise (ValueError msg).
Proof.
  intros Hv; unfold calculate_final_price, calculate_final_price_body, try_except.
  now rewrite Hv.
Qed.

(** After a successful validation the pipeline is the discount followed
    by the tax, and whatever the tax engine raises is wrapped. *)
Lemma calculate_final_price_valid (self : PriceCalculator) (quantity : Z)
    (unit_price : float) (state : string) :
  validate_inputs self quantity unit_price = Ok tt ->
  let subtotal := round2 (fmul (of_int quantity) unit_price) in
  let discount_info :=
    Discount.calculate_discount (discount_calculator self) subtotal in
  calculate_final_price self quantity unit_price state =
    match Tax.calculate_tax (tax_calculator self)
            (Discount.d_final_amount discount_info) state with
    | Ok tax_info =>
        Ok {| subtotal := subtotal;
              discount_percentage := Discount.d_discount_percentage discount_info;
              discount_amount := Discount.d_discount_amount discount_info;
              price_after_discount := Discount.d_final_amount discount_info;
              tax_rate := Tax.t_tax_rate tax_info;
              tax_amount := Tax.t_tax_amount tax_info;
              final_price := Tax.t_final_amount tax_info;
              tax_description := Tax.t_tax_description tax_info;
              calculation_steps := Tax.t_calculation_details tax_info |}
    | Raise e =>
        Raise (CalculationError (py_str e)
                 [("quantity", VInt quantity);
                  ("unit_price", VFloat unit_price);
                  ("state", VStr state)])
    end.
Proof.
  intros Hv subtotal0 discount_info.
  unfold calculate_final_price, calculate_final_price_body, try_except.
  rewrite Hv; cbn [bind]; fold subtotal0; fold discount_info.
  destruct (Tax.calculate_tax _ _ _) as [tax_info | e] eqn:Ht; cbn [bind];
    [reflexivity|].
  now rewrite (calculate_tax_not_ValueError _ _ _ _ Ht).
Qed.

(** Whatever [calculate_final_price] raises is a [ValueError] or a
    [CalculationError]: never a jurisdiction error. *)
Lemma calculate_final_price_raises (self : PriceCalculator) (quantity : Z)
    (unit_price : float) (state : string) (e : exn) :
  calculate_final_price self quantity unit_price state = Raise e ->
  is_ValueError e = true \/ is_CalculationError e = true.
Proof.
  unfold calculate_final_price, try_except.
  destruct (calculate_final_price_body _ _ _ _) as [b | e0]; [discriminate|].
  destruct (is_ValueError e0); intros [= <-]; [now left | now right].
Qed.

(** C6.  Under the configured limits, [calculate_final_price] raises a
    [ValueError] exactly when the quantity is at most 0 or above 10000,
    the unit price is at most 0 or above 1000000, or their product is
    above 10000000; the error carries one of the five reasons of
    [validate_inputs], and no breakdown is returned. *)
Theorem validation_failure_iff (quantity : Z) (unit_price : float)
    (state : string) :
  ((exists msg,
      calculate_final_price init quantity unit_price state
      = Raise (ValueError msg))
   <-> out_of_bounds quantity unit_price)
  /\ (forall msg,
        calculate_final_price init quantity unit_price state
        = Raise (ValueError msg) ->
        In msg validation_messages).
Proof.
  destruct (validate_inputs_cases quantity unit_price)
    as [Hok | (msg & Hraise & Hin)].
  - pose proof (calculate_final_price_valid init _ _ state Hok) as Hrun;
      cbv zeta in Hrun.
    assert (Hno : forall msg,
               calculate_final_price init quantity unit_price state
               <> Raise (ValueError msg)).
    { intros msg; rewrite Hrun; destruct (Tax.calculate_tax _ _ _); discriminate. }
    split; [split|].
    + intros (msg & Hmsg); now apply Hno in Hmsg.
    + intros Hout; now apply validate_inputs_ok in Hok.
    + intros msg Hmsg; now apply Hno in Hmsg.
  - rewrite (calculate_final_price_invalid init _ _ state msg Hraise).
    split; [split|].
    + intros _.
      destruct (validate_inputs_cases quantity unit_price) as [Hok | _];
        [congruence|].
      assert (Hnot : validate_inputs init quantity unit_price <> Ok tt)
        by congruence.
      rewrite validate_inputs_ok in Hnot.
      unfold out_of_bounds in *.
      destruct (Z_le_gt_dec quantity 0); [tauto|].
      destruct (Z_gt_le_dec quantity 10000); [tauto|].
      destruct (fle unit_price zero); [tauto|].
      destruct (fgt unit_price (of_int 1000000)); [tauto|].
      destruct (fgt (fmul (of_int quantity) unit_price) (of_int 10000000));
        [tauto|].
      exfalso; apply Hnot; intros [? | [? | [? | [? | ?]]]];
        try lia; discriminate.
    + eauto.
    + now intros msg' [= <-].
Qed.

(** Every member has an enabled entry in the configured table. *)
Lemma tax_rates_init_enabled (st : Tax.State) :
  exists r, Tax.tax_rates Tax.init st = Some r /\ Tax.enabled r = true.
Proof. destruct st; eexists; split; reflexivity. Qed.

(** The price after discount that the pipeline hands to the tax engine is
    never below zero. *)
Lemma price_after_discount_nonneg (quantity : Z) (unit_price : float) :
  validate_inputs init quantity unit_price = Ok tt ->
  flt (Discount.d_final_amount
         (Discount.calculate_discount Discount.init
            (round2 (fmul (of_int quantity) unit_price)))) zero = false.
Proof.
  intros Hv; apply validate_inputs_ok in Hv.
  assert (Hq : (0 <= quantity)%Z)
    by (destruct (Z_le_gt_dec quantity 0); [exfalso; apply Hv; left; lia | lia]).
  assert (Hp : flt unit_price zero = false).
  { apply not_fle_zero_not_flt.
    destruct (fle unit_price zero) eqn:Hle; [|reflexivity].
    exfalso; apply Hv; unfold out_of_bounds; tauto. }
  apply calculate_discount_final_nonneg.
  - apply round2_nonneg, fmul_nonneg; [now apply of_int_nonneg | exact Hp].
  - intros sg m e Hs; now apply round2_finite in Hs.
Qed.

(** The pipeline returns for every input that passes [validate_inputs]
    and every known code. *)
Lemma calculate_final_price_returns (quantity : Z) (unit_price : float)
    (state : string) :
  validate_inputs init quantity unit_price = Ok tt ->
  Tax.is_valid_state state = true ->
  exists b,
    calculate_final_price init quantity unit_price state = Ok b
    /\ subtotal b = round2 (fmul (of_int quantity) unit_price).
Proof.
  intros Hv Hs.
  rewrite (calculate_final_price_valid init _ _ state Hv); cbv zeta.
  unfold Tax.is_valid_state in Hs.
  destruct (Tax.value2member state) as [st |] eqn:Hst; [|discriminate].
  destruct (tax_rates_init_enabled st) as (r & Hr & He).
  destruct (calculate_tax_ok Tax.init _ state st r Hst Hr He
              (price_after_discount_nonneg quantity unit_price Hv))
    as (info & Hok & _).
  cbn [init tax_calculator discount_calculator].
  rewrite Hok. eexists; split; reflexivity.
Qed.

(** C10.  [calculate_final_price] checks positivity and magnitude only:
    for every quantity in 1..10000, every unit price that is positive and
    at most 1000000 with a product of at most 10000000, whatever the number
    of decimals of the price, and every known jurisdiction code, the
    pipeline returns a breakdown, and its subtotal is the product rounded
    to two decimals. *)
Theorem excess_precision_is_rounded (quantity : Z) (unit_price : float)
    (state : string) :
  (0 < quantity <= 10000)%Z ->
  flt zero unit_price = true ->
  fle unit_price (of_int 1000000) = true ->
  fle (fmul (of_int quantity) unit_price) (of_int 10000000) = true ->
  Tax.is_valid_state state = true ->
  exists b,
    calculate_final_price init quantity unit_price state = Ok b
    /\ subtotal b = round2 (fmul (of_int quantity) unit_price).
Proof.
  intros Hq Hpos Hmax Htotal Hs.
  apply calculate_final_price_returns; [|exact Hs].
  apply validate_inputs_ok.
  intros [Hb | [Hb | [Hb | [Hb | Hb]]]]; try lia.
  - apply flt_not_fge in Hpos. unfold fge, fle in *. congruence.
  - apply fle_not_fgt in Hmax. congruence.
  - apply fle_not_fgt in Htotal. congruence.
Qed.

End PipelineProperties.

(** ** Jurisdiction errors through the layers *)

Section JurisdictionErrors.
Context `{Builtins}.
Import Pipeline.

(** The tax engine lets an unknown code through as an
    [InvalidStateError]. *)
Lemma calculate_tax_unknown (self : Tax.TaxCalculator) (amount : float)
    (state : string) :
  Tax.value2member state = None ->
  Tax.calculate_tax self amount state
  = Raise (InvalidStateError state Tax.list_states).
Proof.
  intros Hv; unfold Tax.calculate_tax, Tax.calculate_tax_body, try_except.
  now rewrite (validate_state_unknown self state Hv).
Qed.

(** The error of an unknown code carries the code and the valid codes. *)
Lemma InvalidStateError_payload (state : string) :
  option_map (fun sd => additional_info (snd sd))
    (http_fields (InvalidStateError state Tax.list_states))
  = Some [("provided_state", VStr state);
          ("valid_states",
           VList [VStr "UT"; VStr "NV"; VStr "TX"; VStr "AL"; VStr "CA"]);
          ("suggestion", VStr "Veuillez utiliser un des états valides listés")].
Proof. reflexivity. Qed.

(** The pipeline wraps it: for valid inputs and an unknown code, what the
    caller gets is a [CalculationError]. *)
Lemma calculate_final_price_unknown (self : PriceCalculator) (quantity : Z)
    (unit_price : float) (state : string) :
  validate_inputs self quantity unit_price = Ok tt ->
  Tax.value2member state = None ->
  calculate_final_price self quantity unit_price state
  = Raise (CalculationError
             (py_str (InvalidStateError state Tax.list_states))
             [("quantity", VInt quantity);
              ("unit_price", VFloat unit_price);
              ("state", VStr state)]).
Proof.
  intros Hv Hs.
  rewrite (calculate_final_price_valid self _ _ state Hv); cbv zeta.
  now rewrite (calculate_tax_unknown _ _ state Hs).
Qed.

(** C1 (the code departs from it).  With quantity 1, unit price 100.00 and
    the unknown code XX, the tax engine raises [InvalidStateError] on the
    discounted price, and [calculate_final_price] raises a
    [CalculationError] that wraps its text with the three inputs: the
    jurisdiction error does not reach the caller. *)
Theorem jurisdiction_error_is_rewrapped :
  let e := InvalidStateError "XX" Tax.list_states in
  Tax.calculate_tax Tax.init (of_int 95) "XX" = Raise e
  /\ calculate_final_price init 1 (of_ratio 10000 100) "XX"
     = Raise (CalculationError (py_str e)
                [("quantity", VInt 1);
                 ("unit_price", VFloat (of_ratio 10000 100));
                 ("state", VStr "XX")])
  /\ forall self quantity unit_price state,
       match calculate_final_price self quantity unit_price state with
       | Ok _ => True
       | Raise e' => is_jurisdiction_error e' = false
       end.
Proof.
  intros e; split; [|split].
  - now apply calculate_tax_unknown.
  - now apply calculate_final_price_unknown.
  - intros self quantity unit_price state.
    destruct (calculate_final_price self quantity unit_price state)
      as [b | e'] eqn:Hr; [exact I|].
    apply calculate_final_price_raises in Hr as [Hr | Hr];
      destruct e'; cbn in *; congruence.
Qed.

(** C7 (the code departs from it at the pipeline).  For the unknown code
    ZZ, [validate_state] and [calculate_tax] raise [InvalidStateError]
    with the code and the five valid codes; [calculate_final_price], on
    quantity 5 and unit price 10.00, raises a [CalculationError]
    instead. *)
Theorem unknown_code_ZZ :
  let e := InvalidStateError "ZZ" ["UT"; "NV"; "TX"; "AL"; "CA"] in
  Tax.validate_state Tax.init "ZZ" = Raise e
  /\ (forall amount, Tax.calculate_tax Tax.init amount "ZZ" = Raise e)
  /\ calculate_final_price init 5 (of_ratio 1000 100) "ZZ"
     = Raise (CalculationError (py_str e)
                [("quantity", VInt 5);
                 ("unit_price", VFloat (of_ratio 1000 100));
                 ("state", VStr "ZZ")]).
Proof.
  intros e; split; [|split].
  - now apply validate_state_unknown.
  - intros amount; now apply calculate_tax_unknown.
  - now apply calculate_final_price_unknown.
Qed.

(** C3 (the code departs from it on a disabled entry).  With the entry of
    CA disabled, [validate_state] raises the [TypeError] of the
    ill-formed constructor call, not a [StateNotSupportedError], and
    [calculate_tax] reports it as an unexpected [CalculationError]. *)
Theorem disabled_entry_raises_TypeError :
  Tax.validate_state CA_disabled "CA" = Raise (TypeError too_many_arguments)
  /\ Tax.calculate_tax CA_disabled (of_int 95) "CA"
     = Raise (CalculationError "Erreur inattendue lors du calcul de la taxe"
                [("amount", VFloat (of_int 95)); ("state", VStr "CA");
                 ("error", VStr too_many_arguments)]).
Proof.
  assert (Hv : Tax.validate_state CA_disabled "CA"
               = Raise (TypeError too_many_arguments))
    by (eapply validate_state_disabled; reflexivity).
  split; [exact Hv|].
  unfold Tax.calculate_tax, Tax.calculate_tax_body, try_except.
  now rewrite Hv.
Qed.

End JurisdictionErrors.

(** ** Scenarios *)

Section Scenarios.
Context `{Builtins}.
Import Pipeline.

(** C9.  Quantity 1, unit price 100.00, CA: the pipeline returns subtotal
    100.00, discount 5 % of 5.00, price after discount 95.00, tax rate
    8.25, tax 7.84 and final price 102.84. *)
Theorem scenario_one_CA :
  exists b,
    calculate_final_price init 1 (of_ratio 10000 100) "CA" = Ok b
    /\ subtotal b = of_ratio 10000 100
    /\ discount_percentage b = of_int 5
    /\ discount_amount b = of_ratio 500 100
    /\ price_after_discount b = of_ratio 9500 100
    /\ tax_rate b = of_ratio 825 100
    /\ tax_amount b = of_ratio 784 100
    /\ final_price b = of_ratio 10284 100.
Proof.
  eexists; split; [vm_compute; reflexivity|].
  repeat split; vm_compute; reflexivity.
Qed.

End Scenarios.

(** ** Further properties of the error paths and of the arithmetic *)

Section Further.
Context `{Builtins}.
Import Pipeline.

(** X1.  Whatever [calculate_final_price] raises is a [ValueError] or a
    [CalculationError], for every calculator and every input. *)
Theorem pipeline_error_classes (self : PriceCalculator) (quantity : Z)
    (unit_price : float) (state : string) (e : exn) :
  calculate_final_price self quantity unit_price state = Raise e ->
  is_ValueError e = true \/ is_CalculationError e = true.
Proof. apply calculate_final_price_raises. Qed.

(** X2.  A known code without an entry: [validate_state] raises
    [StateNotSupportedError] with the code, [calculate_tax] lets it
    through, and the error carries the code and a suggestion. *)
Theorem absent_entry_is_not_supported (self : Tax.TaxCalculator)
    (amount : float) (state : string) (st : Tax.State) :
  Tax.value2member state = Some st ->
  Tax.tax_rates self st = None ->
  let e := StateNotSupportedError state in
  Tax.validate_state self state = Raise e
  /\ Tax.calculate_tax self amount state = Raise e
  /\ option_map (fun sd => additional_info (snd sd)) (http_fields e)
     = Some [("state", VStr state);
             ("suggestion",
              VStr "Contactez le support pour ajouter le support de cet état")].
Proof.
  intros Hv Hr e.
  pose proof (validate_state_absent self state st Hv Hr) as Hraise.
  split; [exact Hraise|]; split; [|reflexivity].
  unfold Tax.calculate_tax, Tax.calculate_tax_body, try_except.
  now rewrite Hraise.
Qed.

(** X3.  A code outside the five: the tax engine raises [InvalidStateError]
    with the code and the five valid codes, for every calculator and
    amount. *)
Theorem unknown_code_in_tax_engine (self : Tax.TaxCalculator)
    (amount : float) (state : string) :
  ~ In state ["UT"; "NV"; "TX"; "AL"; "CA"] ->
  let e := InvalidStateError state ["UT"; "NV"; "TX"; "AL"; "CA"] in
  Tax.validate_state self state = Raise e
  /\ Tax.calculate_tax self amount state = Raise e
  /\ option_map (fun sd => additional_info (snd sd)) (http_fields e)
     = Some [("provided_state", VStr state);
             ("valid_states",
              VList [VStr "UT"; VStr "NV"; VStr "TX"; VStr "AL"; VStr "CA"]);
             ("suggestion", VStr "Veuillez utiliser un des états valides listés")].
Proof.
  intros Hout e; apply value2member_outside in Hout.
  split; [now apply validate_state_unknown|].
  split; [now apply calculate_tax_unknown | apply InvalidStateError_payload].
Qed.

(** X4.  The breakdown of a successful run: the subtotal is the rounded
    product, the price after discount is the final amount of the discount
    on it and is not below zero, and the tax engine ran on that price. *)
Theorem breakdown_of_valid_inputs (quantity : Z) (unit_price : float)
    (state : string) (b : PriceBreakdown) :
  calculate_final_price init quantity unit_price state = Ok b ->
  let discount_info :=
    Discount.calculate_discount Discount.init (subtotal b) in
  subtotal b = round2 (fmul (of_int quantity) unit_price)
  /\ discount_percentage b = Discount.d_discount_percentage discount_info
  /\ discount_amount b = Discount.d_discount_amount discount_info
  /\ price_after_discount b = Discount.d_final_amount discount_info
  /\ flt (price_after_discount b) zero = false
  /\ exists tax_info,
       Tax.calculate_tax Tax.init (price_after_discount b) state = Ok tax_info
       /\ tax_rate b = Tax.t_tax_rate tax_info
       /\ tax_amount b = Tax.t_tax_amount tax_info
       /\ final_price b = Tax.t_final_amount tax_info.
Proof.
  intros Hrun.
  destruct (validate_inputs_cases quantity unit_price)
    as [Hok | (msg & Hraise & _)].
  - pose proof (price_after_discount_nonneg quantity unit_price Hok) as Hnn.
    rewrite (calculate_final_price_valid init _ _ state Hok) in Hrun;
      cbv zeta in Hrun; cbn [init tax_calculator discount_calculator] in Hrun.
    destruct (Tax.calculate_tax Tax.init _ state) as [tax_info |] eqn:Ht;
      [|discriminate].
    injection Hrun as <-; cbn.
    repeat split; try assumption.
    exists tax_info; repeat split; assumption.
  - rewrite (calculate_final_price_invalid init _ _ state msg Hraise) in Hrun.
    discriminate.
Qed.

(** X5.  The tax is the amount times [rate / 100], in that association: on
    10.00 in UT the engine returns 0.68, where [(amount * rate) / 100]
    would round to 0.69. *)
Theorem tax_product_association :
  (exists info,
     Tax.calculate_tax Tax.init (of_ratio 1000 100) "UT" = Ok info
     /\ Tax.t_tax_amount info = of_ratio 68 100)
  /\ round2 (fdiv (fmul (of_ratio 1000 100) (of_ratio 685 100)) (of_int 100))
     = of_ratio 69 100.
Proof.
  split; [|vm_compute; reflexivity].
  eexists; split; [vm_compute; reflexivity | vm_compute; reflexivity].
Qed.

End Further.

(** ** The order of floats *)

Section FloatOrder.
Local Open Scope Z_scope.

(** [SFcompare] composes: below-or-equal twice is below-or-equal, and equal
    only when both are. *)
Lemma SFcompare_trans (x y z : float) (c1 c2 : comparison) :
  SFcompare x y = Some c1 -> SFcompare y z = Some c2 ->
  c1 <> Gt -> c2 <> Gt ->
  SFcompare x z = Some (match c1, c2 with Eq, Eq => Eq | _, _ => Lt end).
Proof.
  intros H1 H2 N1 N2.
  destruct x as [[] | [] | | [] mx ex], y as [[] | [] | | [] my ey],
    z as [[] | [] | | [] mz ez];
    cbn in H1, H2 |- *;
    try discriminate;
    try (injection H1 as <-; injection H2 as <-; first [congruence | reflexivity]).
  all: rewrite ?Pos.compare_cont_spec in *; unfold Pos.switch_Eq in *.
  all: repeat match goal with
         | H : context [(?a ?= ?b)%Z] |- _ => destruct (Z.compare_spec a b)
         | |- context [(?a ?= ?b)%Z] => destruct (Z.compare_spec a b)
         | H : context [(?a ?= ?b)%positive] |- _ => destruct (Pos.compare_spec a b)
         | |- context [(?a ?= ?b)%positive] => destruct (Pos.compare_spec a b)
         end;
       cbn in *; try lia;
       try (injection H1 as <-; injection H2 as <-; first [congruence | reflexivity]).
Qed.


Lemma fle_trans (x y z : float) :
  fle x y = true -> fle y z = true -> fle x z = true.
Proof.
  unfold fle, SFleb.
  destruct (SFcompare x y) as [c1 |] eqn:H1; [|discriminate].
  destruct (SFcompare y z) as [c2 |] eqn:H2; [|destruct c1; discriminate].
  intros Hc1 Hc2.
  rewrite (SFcompare_trans x y z c1 c2 H1 H2)
    by (destruct c1, c2; discriminate).
  now destruct c1, c2.
Qed.

Lemma flt_fle_trans (x y z : float) :
  flt x y = true -> fle y z = true -> flt x z = true.
Proof.
  unfold flt, fle, SFltb, SFleb.
  destruct (SFcompare x y) as [c1 |] eqn:H1; [|discriminate].
  destruct (SFcompare y z) as [c2 |] eqn:H2; [|destruct c1; discriminate].
  intros Hc1 Hc2.
  rewrite (SFcompare_trans x y z c1 c2 H1 H2)
    by (destruct c1, c2; discriminate).
  now destruct c1, c2.
Qed.

Lemma flt_fle (x y : float) : flt x y = true -> fle x y = true.
Proof.
  unfold flt, fle, SFltb, SFleb. now destruct (SFcompare x y) as [[] |].
Qed.

Lemma flt_trans (x y z : float) :
  flt x y = true -> flt y z = true -> flt x z = true.
Proof. intros Hxy Hyz; eapply flt_fle_trans; eauto using flt_fle. Qed.

Lemma flt_irrefl (x : float) : flt x x = false.
Proof.
  unfold flt, SFltb.
  destruct (SFcompare x x) as [[] |] eqn:Hc; try reflexivity.
  pose proof (SFcompare_antisym x x) as Ha. rewrite Hc in Ha. discriminate.
Qed.

End FloatOrder.

(** ** The discount engine on every table *)

Section MaxBy.
Import Discount.
Context {A : Type} (key : A -> float).

(** Python's [max(items, key=key)], with the scan made explicit: [pre] and
    [post] are the items seen before and after the maximum so far. *)
Lemma max_by_scan (items : list A) : forall (pre post : list A) (best : A),
  (forall r, In r pre -> fle (key best) (key r) = false) ->
  (forall r, In r post -> flt (key best) (key r) = false) ->
  exists l1 l2,
    (pre ++ best :: post ++ items)%list
    = (l1 ++ max_by key best items :: l2)%list
    /\ (forall r, In r l1 -> fle (key (max_by key best items)) (key r) = false)
    /\ (forall r, In r l2 -> flt (key (max_by key best items)) (key r) = false).
Proof.
  induction items as [| x rest IH]; intros pre post best Hpre Hpost;
    cbn [max_by].
  - exists pre, post. now rewrite app_nil_r.
  - destruct (fgt (key x) (key best)) eqn:Hgt; unfold fgt in Hgt.
    + destruct (IH (pre ++ best :: post)%list [] x) as (l1 & l2 & Heq & H1 & H2).
      * intros r Hr. apply in_app_or in Hr as [Hr | [<- | Hr]].
        -- destruct (fle (key x) (key r)) eqn:Hle; [|reflexivity].
           specialize (Hpre r Hr).
           rewrite (flt_fle (key best) (key r)
                      (flt_fle_trans _ _ _ Hgt Hle)) in Hpre.
           discriminate Hpre.
        -- now apply flt_not_fge in Hgt.
        -- destruct (fle (key x) (key r)) eqn:Hle; [|reflexivity].
           specialize (Hpost r Hr).
           rewrite (flt_fle_trans _ _ _ Hgt Hle) in Hpost.
           discriminate Hpost.
      * intros r [].
      * exists l1, l2; split; [|now split].
        rewrite <- Heq. cbn [app]. now rewrite <- !app_assoc.
    + destruct (IH pre (post ++ [x])%list best) as (l1 & l2 & Heq & H1 & H2).
      * exact Hpre.
      * intros r Hr. apply in_app_or in Hr as [Hr | [<- | []]]; auto.
      * exists l1, l2; split; [|now split].
        rewrite <- Heq. now rewrite <- app_assoc.
Qed.

Lemma max_by_spec (best : A) (items : list A) :
  exists l1 l2,
    best :: items = (l1 ++ max_by key best items :: l2)%list
    /\ (forall r, In r l1 -> fle (key (max_by key best items)) (key r) = false)
    /\ (forall r, In r l2 -> flt (key (max_by key best items)) (key r) = false).
Proof.
  destruct (max_by_scan items [] [] best) as (l1 & l2 & Heq & H); try (intros r []).
  exists l1, l2; split; [exact Heq | exact H].
Qed.

End MaxBy.

Section DiscountAnyTable.
Import Discount.

(** X6.  For every rule table and every amount: the rule that
    [get_applicable_discount] returns is a rule of the table, the amount
    reaches its minimum, and no rule of the table that the amount reaches
    has a strictly higher percentage; it returns none exactly when the
    amount reaches no minimum. *)
Theorem get_applicable_discount_any_table (self : DiscountCalculator)
    (s : float) :
  match get_applicable_discount self s with
  | Some best =>
      In best (discount_rules self)
      /\ fge s (min_amount best) = true
      /\ forall rule,
           In rule (discount_rules self) ->
           fge s (min_amount rule) = true ->
           flt (discount_percentage best) (discount_percentage rule) = false
  | None =>
      forall rule, In rule (discount_rules self) ->
                   fge s (min_amount rule) = false
  end.
Proof.
  unfold get_applicable_discount.
  destruct (applicable_rules self s) as [| first rest] eqn:Ha.
  - intros rule Hin.
    destruct (fge s (min_amount rule)) eqn:Hge; [|reflexivity].
    assert (Hf : In rule (applicable_rules self s))
      by (apply filter_In; auto).
    rewrite Ha in Hf. destruct Hf.
  - destruct (max_by_spec discount_percentage first rest)
      as (l1 & l2 & Heq & H1 & H2).
    set (best := max_by discount_percentage first rest) in *.
    assert (Hbest : In best (applicable_rules self s))
      by (rewrite Ha, Heq; apply in_elt).
    apply filter_In in Hbest as [Hin Hge].
    split; [exact Hin|]; split; [exact Hge|].
    intros rule Hr Hrge.
    assert (Hf : In rule (applicable_rules self s))
      by (apply filter_In; auto).
    rewrite Ha, Heq in Hf.
    apply in_app_or in Hf as [Hf | [<- | Hf]].
    + destruct (flt (discount_percentage best) (discount_percentage rule))
        eqn:Hlt; [|reflexivity].
      apply flt_fle in Hlt. rewrite (H1 rule Hf) in Hlt. discriminate.
    + apply flt_irrefl.
    + now apply H2.
Qed.

(** X7.  The tie-break of [max]: the applicable rules, in table order, split
    around the returned rule so that no rule before it reaches its
    percentage and no rule after it exceeds it.  Among rules of equal
    highest percentage the first listed is returned. *)
Theorem get_applicable_discount_first_maximum (self : DiscountCalculator)
    (s : float) (best : DiscountRule) :
  get_applicable_discount self s = Some best ->
  exists before after,
    applicable_rules self s = (before ++ best :: after)%list
    /\ (forall rule, In rule before ->
          fle (discount_percentage best) (discount_percentage rule) = false)
    /\ (forall rule, In rule after ->
          flt (discount_percentage best) (discount_percentage rule) = false).
Proof.
  unfold get_applicable_discount.
  destruct (applicable_rules self s) as [| first rest]; [discriminate|].
  intros [= <-]. apply max_by_spec.
Qed.

(** The thresholds of the configured rules are nested. *)
Lemma thresholds_nested (s : float) :
  (fge s (of_int 5000) = true -> fge s (of_int 1000) = true)
  /\ (fge s (of_int 1000) = true -> fge s (of_int 500) = true)
  /\ (fge s (of_int 500) = true -> fge s (of_int 100) = true).
Proof.
  unfold fge; repeat split; intros Hs;
    (eapply fle_trans; [|exact Hs]); reflexivity.
Qed.

Lemma discount_percentage_by_threshold (s : float) :
  d_discount_percentage (calculate_discount init s)
  = if fge s (of_int 5000) then of_int 20
    else if fge s (of_int 1000) then of_int 15
    else if fge s (of_int 500) then of_int 10
    else if fge s (of_int 100) then of_int 5
    else zero.
Proof.
  destruct (thresholds_nested s) as (H54 & H43 & H32).
  unfold calculate_discount, get_applicable_discount.
  rewrite applicable_rules_init.
  destruct (fge s (of_int 5000)) eqn:H5;
    [rewrite (H54 eq_refl), (H43 (H54 eq_refl)), (H32 (H43 (H54 eq_refl)));
     reflexivity|].
  destruct (fge s (of_int 1000)) eqn:H4;
    [rewrite (H43 eq_refl), (H32 (H43 eq_refl)); reflexivity|].
  destruct (fge s (of_int 500)) eqn:H3;
    [rewrite (H32 eq_refl); reflexivity|].
  destruct (fge s (of_int 100)) eqn:H2; reflexivity.
Qed.

(** X8.  On the configured rules the highest percentage is that of the
    highest threshold reached: 20 from 5000, 15 from 1000, 10 from 500, 5
    from 100, and 0 below 100 or on a NaN. *)
Theorem discount_schedule (s : float) :
  d_discount_percentage (calculate_discount init s)
  = if fge s (of_int 5000) then of_int 20
    else if fge s (of_int 1000) then of_int 15
    else if fge s (of_int 500) then of_int 10
    else if fge s (of_int 100) then of_int 5
    else zero.
Proof. apply discount_percentage_by_threshold. Qed.

End DiscountAnyTable.

(** ** The tax engine on every table *)

Section MoreSigns.

Lemma fadd_nonneg (a b : float) :
  flt a zero = false -> flt b zero = false -> flt (fadd a b) zero = false.
Proof.
  destruct a as [[] | [] | | [] ma ea], b as [[] | [] | | [] mb eb];
    cbn; try congruence; intros _ _.
  apply binary_round_nonneg.
Qed.

Lemma fdiv_100_nonneg (a : float) :
  flt a zero = false -> flt (fdiv a (of_int 100)) zero = false.
Proof.
  destruct a as [[] | [] | | [] ma ea]; try (cbn; congruence); intros _.
  change (of_int 100) with (S754_finite false 7036874417766400 (-46)).
  apply fdiv_finite_nonneg.
Qed.

End MoreSigns.

Section TaxOutcome.
Context `{Builtins}.
Import Tax.

(** X9.  The enumeration and its values: looking up the value of a member
    gives the member back, a value that is found is the value of its
    member, and [is_valid_state] holds exactly on the strings of
    [list_states]. *)
Theorem State_round_trip :
  (forall st, value2member (value st) = Some st)
  /\ (forall state st, value2member state = Some st -> value st = state)
  /\ (forall state, is_valid_state state = true <-> In state list_states).
Proof.
  split; [|split].
  - now intros [].
  - intros state st Hf. unfold value2member in Hf.
    apply find_some in Hf as [_ Heq]. now apply String.eqb_eq in Heq.
  - intros state; unfold is_valid_state; split.
    + destruct (value2member state) as [st |] eqn:Hv; [intros _ | discriminate].
      unfold value2member in Hv. apply find_some in Hv as [Hin Heq].
      apply String.eqb_eq in Heq; subst state.
      unfold list_states. now apply in_map.
    + intros Hin.
      destruct (value2member state) eqn:Hv; [reflexivity|].
      exfalso. revert Hv. apply in_map_iff in Hin as (st & <- & _).
      now destruct st.
Qed.

(** X10.  What [calculate_tax] does on every table, amount and code, in
    the order of its checks: an unknown code raises [InvalidStateError]; a
    known code without an entry raises [StateNotSupportedError]; a disabled
    entry gives the unexpected-error [CalculationError]; then a negative
    amount gives the negative-amount [CalculationError]; otherwise the
    dictionary is returned.  The code is checked before the amount, and
    the second look-up of the rate inside [calculate_tax] never fails. *)
Theorem calculate_tax_outcome (self : TaxCalculator) (amount : float)
    (state : string) :
  match value2member state with
  | None =>
      calculate_tax self amount state
      = Raise (InvalidStateError state list_states)
  | Some st =>
      match tax_rates self st with
      | None =>
          calculate_tax self amount state = Raise (StateNotSupportedError state)
      | Some r =>
          if negb (enabled r) then
            calculate_tax self amount state
            = Raise (CalculationError
                       "Erreur inattendue lors du calcul de la taxe"
                       [("amount", VFloat amount); ("state", VStr state);
                        ("error", VStr too_many_arguments)])
          else if flt amount zero then
            calculate_tax self amount state
            = Raise (CalculationError "Le montant ne peut pas être négatif"
                       [("amount", VFloat amount); ("state", VStr state)])
          else
            exists info,
              calculate_tax self amount state = Ok info
              /\ t_state info = state
              /\ t_tax_rate info = rate r
              /\ t_original_amount info = round2 amount
              /\ t_tax_amount info
                 = round2 (fmul (round2 amount) (fdiv (rate r) (of_int 100)))
              /\ t_final_amount info
                 = round2 (fadd (round2 amount) (t_tax_amount info))
        end
  end.
Proof.
  destruct (value2member state) as [st |] eqn:Hv.
  - destruct (tax_rates self st) as [r |] eqn:Hr.
    + destruct (enabled r) eqn:He; cbn [negb].
      * destruct (flt amount zero) eqn:Ha.
        -- unfold calculate_tax, calculate_tax_body, try_except.
           rewrite (validate_state_enabled self state st r Hv Hr He); cbn.
           now rewrite Ha.
        -- destruct (calculate_tax_ok self amount state st r Hv Hr He Ha)
             as (info & Hok & Ho & Hrate & Ht & Hf).
           exists info; repeat split; try assumption.
           revert Hok. unfold calculate_tax, calculate_tax_body, try_except.
           rewrite (validate_state_enabled self state st r Hv Hr He); cbn.
           rewrite Ha; unfold get_tax_rate; rewrite Hr.
           now intros [= <-].
      * unfold calculate_tax, calculate_tax_body, try_except.
        now rewrite (validate_state_disabled self state st r Hv Hr He).
    + unfold calculate_tax, calculate_tax_body, try_except.
      now rewrite (validate_state_absent self state st Hv Hr).
  - unfold calculate_tax, calculate_tax_body, try_except.
    now rewrite (validate_state_unknown self state Hv).
Qed.

End TaxOutcome.

Section TaxSigns.
Context `{Builtins}.
Import Tax.

(** A returned dictionary comes from a known, enabled entry and an amount
    that is not below zero, and holds the three rounded amounts. *)
Lemma calculate_tax_ok_inv (self : TaxCalculator) (amount : float)
    (state : string) (info : tax_info) :
  calculate_tax self amount state = Ok info ->
  exists st r,
    value2member state = Some st
    /\ tax_rates self st = Some r
    /\ enabled r = true
    /\ flt amount zero = false
    /\ t_original_amount info = round2 amount
    /\ t_tax_rate info = rate r
    /\ t_tax_amount info
       = round2 (fmul (round2 amount) (fdiv (rate r) (of_int 100)))
    /\ t_final_amount info
       = round2 (fadd (round2 amount) (t_tax_amount info)).
Proof.
  intros Hrun.
  destruct (value2member state) as [st |] eqn:Hv;
    [|rewrite (calculate_tax_unknown self amount state Hv) in Hrun;
      discriminate].
  destruct (tax_rates self st) as [r |] eqn:Hr.
  - destruct (enabled r) eqn:He.
    + destruct (flt amount zero) eqn:Ha.
      * exfalso; revert Hrun.
        unfold calculate_tax, calculate_tax_body, try_except.
        rewrite (validate_state_enabled self state st r Hv Hr He); cbn.
        now rewrite Ha.
      * destruct (calculate_tax_ok self amount state st r Hv Hr He Ha)
          as (info' & Hok & Hfields).
        rewrite Hok in Hrun; injection Hrun as <-.
        exists st, r; repeat split; try assumption; apply Hfields.
    + exfalso; revert Hrun.
      unfold calculate_tax, calculate_tax_body, try_except.
      now rewrite (validate_state_disabled self state st r Hv Hr He).
  - exfalso; revert Hrun.
    unfold calculate_tax, calculate_tax_body, try_except.
    now rewrite (validate_state_absent self state st Hv Hr).
Qed.

Lemma calculate_tax_signs (self : TaxCalculator) (amount : float)
    (state : string) (info : tax_info) :
  calculate_tax self amount state = Ok info ->
  flt (t_tax_rate info) zero = false ->
  flt (t_original_amount info) zero = false
  /\ flt (t_tax_amount info) zero = false
  /\ flt (t_final_amount info) zero = false.
Proof.
  intros Hrun Hrate.
  destruct (calculate_tax_ok_inv self amount state info Hrun)
    as (st & r & _ & _ & _ & Ha & Ho & Hr & Ht & Hf).
  rewrite Hr in Hrate.
  assert (Hon : flt (round2 amount) zero = false) by now apply round2_nonneg.
  assert (Htn : flt (t_tax_amount info) zero = false).
  { rewrite Ht. apply round2_nonneg, fmul_nonneg; [exact Hon|].
    now apply fdiv_100_nonneg. }
  rewrite Ho, Hf. repeat split; try assumption.
  now apply round2_nonneg, fadd_nonneg.
Qed.

(** X11.  On every table: when [calculate_tax] returns and the rate is not
    below zero, neither the rounded amount, the tax, nor the final amount
    is below zero. *)
Theorem calculate_tax_amounts_nonneg (self : TaxCalculator) (amount : float)
    (state : string) (info : tax_info) :
  calculate_tax self amount state = Ok info ->
  flt (t_tax_rate info) zero = false ->
  flt (t_original_amount info) zero = false
  /\ flt (t_tax_amount info) zero = false
  /\ flt (t_final_amount info) zero = false.
Proof. apply calculate_tax_signs. Qed.

End TaxSigns.

(** ** Signs and edge values in the pipeline *)

Section PipelineMore.
Context `{Builtins}.
Import Pipeline.

Lemma fmul_nan_r (x : float) : fmul x S754_nan = S754_nan.
Proof. now destruct x. Qed.

Lemma rates_init_nonneg (st : Tax.State) (r : Tax.TaxRate) :
  Tax.tax_rates Tax.init st = Some r -> flt (Tax.rate r) zero = false.
Proof. destruct st; intros [= <-]; reflexivity. Qed.

Lemma calculate_discount_amount_nonneg (s : float) :
  flt s zero = false ->
  flt (Discount.d_discount_amount
         (Discount.calculate_discount Discount.init s)) zero = false.
Proof.
  intros Hs.
  destruct (Discount.get_applicable_discount Discount.init s) as [rule |] eqn:Hg.
  - rewrite (calculate_discount_some Discount.init s rule Hg);
      cbn [Discount.d_discount_amount].
    apply get_applicable_discount_eligible in Hg as [Hin _].
    apply round2_nonneg, fmul_nonneg; [exact Hs|].
    apply In_rules_init in Hin.
    destruct Hin as [-> | [-> | [-> | ->]]]; reflexivity.
  - now rewrite (calculate_discount_none Discount.init s Hg).
Qed.

(** X12.  No numeric field of a breakdown that [calculate_final_price]
    returns is below zero. *)
Theorem breakdown_fields_nonneg (quantity : Z) (unit_price : float)
    (state : string) (b : PriceBreakdown) :
  calculate_final_price init quantity unit_price state = Ok b ->
  flt (subtotal b) zero = false
  /\ flt (discount_percentage b) zero = false
  /\ flt (discount_amount b) zero = false
  /\ flt (price_after_discount b) zero = false
  /\ flt (tax_rate b) zero = false
  /\ flt (tax_amount b) zero = false
  /\ flt (final_price b) zero = false.
Proof.
  intros Hrun.
  destruct (validate_inputs_cases quantity unit_price)
    as [Hok | (msg & Hraise & _)];
    [|rewrite (calculate_final_price_invalid init _ _ state msg Hraise) in Hrun;
      discriminate].
  pose proof (price_after_discount_nonneg quantity unit_price Hok) as Hpad.
  rewrite (calculate_final_price_valid init _ _ state Hok) in Hrun;
    cbv zeta in Hrun; cbn [init tax_calculator discount_calculator] in Hrun.
  set (s := round2 (fmul (of_int quantity) unit_price)) in *.
  assert (Hs : flt s zero = false).
  { apply validate_inputs_ok in Hok.
    apply round2_nonneg, fmul_nonneg.
    - apply of_int_nonneg.
      destruct (Z_le_gt_dec quantity 0); [exfalso; apply Hok; left; lia | lia].
    - apply not_fle_zero_not_flt.
      destruct (fle unit_price zero) eqn:Hle; [|reflexivity].
      exfalso; apply Hok; unfold out_of_bounds; tauto. }
  destruct (Tax.calculate_tax Tax.init _ state) as [tax_info |] eqn:Ht;
    [|discriminate].
  injection Hrun as <-; cbn.
  destruct (calculate_tax_ok_inv _ _ _ _ Ht)
    as (st & r & _ & Hr & _ & _ & _ & Hrate & _).
  assert (Hrn : flt (Tax.t_tax_rate tax_info) zero = false)
    by (rewrite Hrate; now apply (rates_init_nonneg st)).
  destruct (calculate_tax_signs _ _ _ _ Ht Hrn) as (_ & Htax & Hfin).
  repeat split; try assumption.
  - unfold s; rewrite discount_percentage_by_threshold; fold s.
    now destruct (fge s (of_int 5000)), (fge s (of_int 1000)),
      (fge s (of_int 500)), (fge s (of_int 100)).
  - now apply calculate_discount_amount_nonneg.
Qed.

End PipelineMore.

Section PipelineEdge.
Context `{Builtins}.
Import Pipeline.

(** X13.  A NaN unit price passes [validate_inputs], every comparison with
    it being false: for a quantity in 1..10000 and a known code the
    pipeline returns a breakdown whose subtotal, price after discount, tax
    and final price are NaN, with no discount. *)
Theorem nan_unit_price_is_accepted (quantity : Z) (state : string) :
  (0 < quantity <= 10000)%Z ->
  Tax.is_valid_state state = true ->
  exists b,
    calculate_final_price init quantity S754_nan state = Ok b
    /\ subtotal b = S754_nan
    /\ discount_percentage b = zero
    /\ discount_amount b = zero
    /\ price_after_discount b = S754_nan
    /\ tax_amount b = S754_nan
    /\ final_price b = S754_nan.
Proof.
  intros Hq Hs.
  assert (Hv : validate_inputs init quantity S754_nan = Ok tt).
  { apply validate_inputs_ok.
    unfold out_of_bounds; rewrite fmul_nan_r.
    intros [Hb | [Hb | [Hb | [Hb | Hb]]]]; try lia; discriminate. }
  rewrite (calculate_final_price_valid init _ _ state Hv); cbv zeta.
  rewrite fmul_nan_r.
  unfold Tax.is_valid_state in Hs.
  destruct (Tax.value2member state) as [st |] eqn:Hst; [|discriminate].
  destruct (tax_rates_init_enabled st) as (r & Hr & He).
  change (Discount.calculate_discount (discount_calculator init) (round2 S754_nan))
    with {| Discount.d_original_amount := S754_nan;
            Discount.d_discount_percentage := zero;
            Discount.d_discount_amount := zero;
            Discount.d_final_amount := S754_nan;
            Discount.d_discount_description := "Aucune remise applicable" |}.
  cbn [Discount.d_final_amount Discount.d_discount_percentage
       Discount.d_discount_amount init tax_calculator].
  destruct (calculate_tax_ok Tax.init S754_nan state st r Hst Hr He eq_refl)
    as (info & Hok & _ & _ & Ht & Hf).
  rewrite Hok. eexists; split; [reflexivity|]; cbn.
  repeat split; try reflexivity.
  - now rewrite Ht.
  - now rewrite Hf, Ht.
Qed.

End PipelineEdge.

(** ** The endpoint *)

Section Endpoint.
Context `{Builtins}.
Import Pipeline.


End Endpoint.

(** ** The request schema's validators *)

Section ModelsProperties.
Import Models.
Context {char : Type} (isspace : char -> bool).

Lemma lstrip_spec (v : list char) :
  exists l,
    v = (l ++ lstrip isspace v)%list
    /\ forallb isspace l = true
    /\ match lstrip isspace v with
       | [] => True
       | c :: _ => isspace c = false
       end.
Proof.
  induction v as [| c rest IH]; cbn [lstrip].
  - exists []; repeat split.
  - destruct (isspace c) eqn:Hc.
    + destruct IH as (l & Heq & Hl & Hhead).
      exists (c :: l); cbn; rewrite Hc, Hl. repeat split; [|exact Hhead].
      now f_equal.
    + exists []; cbn; now rewrite Hc.
Qed.

Lemma lstrip_fixed (v : list char) :
  match v with [] => True | c :: _ => isspace c = false end ->
  lstrip isspace v = v.
Proof. destruct v as [| c rest]; cbn; [reflexivity | now intros ->]. Qed.

Lemma lstrip_nil_iff (v : list char) :
  lstrip isspace v = [] <-> forallb isspace v = true.
Proof.
  induction v as [| c rest IH]; cbn; [tauto|].
  destruct (isspace c); cbn; [exact IH | split; discriminate].
Qed.

Lemma forallb_rev (l : list char) :
  forallb isspace (rev l) = forallb isspace l.
Proof.
  induction l as [| c l IH]; cbn; [reflexivity|].
  rewrite forallb_app, IH; cbn. rewrite andb_true_r. apply andb_comm.
Qed.

(** Stripping the right end keeps a first character that is not
    whitespace. *)
Lemma lstrip_snoc_head (v : list char) (c : char) (rest : list char) :
  v = c :: rest -> isspace c = false ->
  exists rest', rev (lstrip isspace (rev v)) = c :: rest'.
Proof.
  intros -> Hc.
  destruct (lstrip_spec (rev (c :: rest))) as (l & Heq & Hl & _).
  apply (f_equal (@rev char)) in Heq.
  rewrite rev_involutive, rev_app_distr in Heq.
  destruct (rev (lstrip isspace (rev (c :: rest)))) as [| c' rest'] eqn:Hr.
  - cbn in Heq.
    assert (Hall : forallb isspace (rev l) = true) by now rewrite forallb_rev.
    rewrite <- Heq in Hall. cbn in Hall. rewrite Hc in Hall. discriminate.
  - cbn in Heq. injection Heq as <- _. now exists rest'.
Qed.

(** X15.  A name that [validate_name] returns is not empty, is the input
    without a run of whitespace at each end, neither starts nor ends with
    whitespace, and is returned unchanged when validated again. *)
Theorem validate_name_accepts (v name : list char) :
  validate_name isspace v = Ok name ->
  name <> []
  /\ (exists l r,
        v = (l ++ name ++ r)%list
        /\ forallb isspace l = true /\ forallb isspace r = true)
  /\ (forall c rest, name = c :: rest -> isspace c = false)
  /\ (forall c rest, rev name = c :: rest -> isspace c = false)
  /\ validate_name isspace name = Ok name.
Proof.
  unfold validate_name.
  destruct (strip isspace v) as [| c0 rest0] eqn:Hs; [discriminate|].
  intros [= <-].
  unfold strip, rstrip in Hs.
  destruct (lstrip_spec v) as (l & Hv & Hl & Hhead).
  set (w := lstrip isspace v) in *.
  destruct (lstrip_spec (rev w)) as (r & Hw & Hr & Hlast).
  assert (Hwr : w = ((c0 :: rest0) ++ rev r)%list).
  { rewrite <- Hs, <- rev_app_distr, <- Hw. now rewrite rev_involutive. }
  assert (Hc0 : isspace c0 = false).
  { rewrite Hwr in Hhead. exact Hhead. }
  assert (Hrevlast : forall c rest, rev (c0 :: rest0) = c :: rest ->
                                    isspace c = false).
  { intros c rest Hrev. rewrite <- Hs, rev_involutive in Hrev.
    now rewrite Hrev in Hlast. }
  split; [discriminate|]. split; [|split; [|split]].
  - exists l, (rev r). rewrite Hv, Hwr. repeat split; [exact Hl|].
    now rewrite forallb_rev.
  - now intros c rest [= <- _].
  - exact Hrevlast.
  - assert (Hfix : strip isspace (c0 :: rest0) = c0 :: rest0).
    { unfold strip, rstrip.
      rewrite (lstrip_fixed (c0 :: rest0) Hc0).
      rewrite lstrip_fixed; [apply rev_involutive|].
      destruct (rev (c0 :: rest0)) as [| c rest] eqn:Hrev; [exact I|].
      now apply (Hrevlast c rest). }
    now rewrite Hfix.
Qed.

(** X16.  [validate_name] raises exactly when every character of the
    input is whitespace, the empty input included. *)
Theorem validate_name_rejects_iff (v : list char) :
  (exists msg, validate_name isspace v = Raise (ValueError msg))
  <-> forallb isspace v = true.
Proof.
  unfold validate_name, strip, rstrip.
  destruct (lstrip_spec v) as (l & Hv & Hl & Hhead).
  split.
  - destruct (rev (lstrip isspace (rev (lstrip isspace v)))) eqn:Hs;
      [intros _ | intros (msg & Hm); discriminate].
    destruct (lstrip isspace v) as [| c rest] eqn:Hw.
    + now apply lstrip_nil_iff.
    + destruct (lstrip_snoc_head (c :: rest) c rest eq_refl Hhead)
        as (rest' & Hrest).
      rewrite Hrest in Hs. discriminate.
  - intros Hall. apply lstrip_nil_iff in Hall. rewrite Hall. cbn. eauto.
Qed.

End ModelsProperties.

Section TotalAgreement.
Import Pipeline.

(** X17.  The total limit of the request schema and of the pipeline agree:
    what [validate_inputs] accepts, [validate_total_amount] accepts, and
    for a quantity and a price within their own bounds the converse
    holds. *)
Theorem validate_total_amount_agrees (quantity : Z) (unit_price : float) :
  (validate_inputs init quantity unit_price = Ok tt ->
   Models.validate_total_amount quantity unit_price = Ok tt)
  /\ ((0 < quantity <= 10000)%Z ->
      fle unit_price zero = false ->
      fgt unit_price (of_int 1000000) = false ->
      Models.validate_total_amount quantity unit_price = Ok tt ->
      validate_inputs init quantity unit_price = Ok tt).
Proof.
  unfold Models.validate_total_amount; split.
  - intros Hv; apply validate_inputs_ok in Hv.
    destruct (fgt _ (of_int 10000000)) eqn:Ht; [|reflexivity].
    exfalso; apply Hv; unfold out_of_bounds; tauto.
  - intros Hq Hp Hm Ht. apply validate_inputs_ok.
    destruct (fgt _ (of_int 10000000)) eqn:Hgt; [discriminate|].
    intros [Hb | [Hb | [Hb | [Hb | Hb]]]]; try lia; congruence.
Qed.

End TotalAgreement.

(** * Instances

    Each theorem with a hypothesis, applied at an input of the
    specification's scenarios, on the reference built-ins. *)

(** C2: at subtotal 100.1 the 5 % rule gives amount 5.0 and final amount
    95.09, while 100.1 - 5.0 is 95.1. *)
Lemma final_amount_is_not_subtotal_minus_amount :
  ~ final_is_subtotal_minus_amount.
Proof.
  intros Hclaim.
  destruct (Hclaim (of_ratio 10010 100) (rule_at 0) eq_refl eq_refl)
    as [_ Hfinal].
  vm_compute in Hfinal. discriminate Hfinal.
Qed.

Lemma calculate_discount_amounts_at_100_10 :
  let info := Discount.calculate_discount Discount.init (of_ratio 10010 100) in
  Discount.d_discount_percentage info = of_int 5
  /\ Discount.d_discount_amount info = of_ratio 500 100
  /\ Discount.d_final_amount info = of_ratio 9509 100.
Proof.
  intros info.
  destruct (calculate_discount_amounts Discount.init (of_ratio 10010 100)
              (rule_at 0) eq_refl eq_refl) as (Hp & Ha & Hf).
  fold info in Hp, Ha, Hf.
  rewrite Hp, Ha, Hf. repeat split; vm_compute; reflexivity.
Defined.

(** C4: 95.00 in CA. *)
Lemma calculate_tax_rounding_order_at_95_CA :
  exists info,
    @Tax.calculate_tax plain_builtins Tax.init (of_ratio 9500 100) "CA" = Ok info
    /\ Tax.t_original_amount info = round2 (of_ratio 9500 100)
    /\ Tax.t_tax_rate info = of_ratio 825 100
    /\ Tax.t_tax_amount info
       = round2 (fmul (Tax.t_original_amount info)
                   (fdiv (of_ratio 825 100) (of_int 100)))
    /\ Tax.t_final_amount info
       = round2 (fadd (Tax.t_original_amount info) (Tax.t_tax_amount info)).
Proof.
  exact (@calculate_tax_rounding_order plain_builtins Tax.init
           (of_ratio 9500 100) "CA" Tax.CA
           {| Tax.rate := of_ratio 825 100;
              Tax.description := "California Sales Tax";
              Tax.enabled := true |}
           eq_refl eq_refl eq_refl eq_refl).
Defined.

(** C5: a subtotal of 750.00 gets the 10 % rule. *)
Lemma get_applicable_discount_best_at_750 :
  exists best,
    Discount.get_applicable_discount Discount.init (of_ratio 75000 100) = Some best
    /\ Discount.discount_percentage best = of_int 10.
Proof.
  destruct (get_applicable_discount_best (of_ratio 75000 100)) as [Hsome _].
  destruct Hsome as (best & Hbest & _).
  - exists (rule_at 0); split; [cbn; tauto | reflexivity].
  - exists best; split; [exact Hbest|].
    vm_compute in Hbest. now injection Hbest as <-.
Defined.

(** C6: scenario 3, quantity 1000 at 99999.99. *)
Lemma validation_failure_at_scenario_3 :
  @Pipeline.calculate_final_price plain_builtins Pipeline.init 1000
    (of_ratio 9999999 100) "CA"
  = Raise (ValueError "Le montant total ne peut pas dépasser 10 millions €").
Proof.
  destruct (@validation_failure_iff plain_builtins 1000 (of_ratio 9999999 100) "CA")
    as [[_ Hraise] Hmsg].
  destruct Hraise as (msg & Hmsg').
  - unfold out_of_bounds. do 4 right. vm_compute. reflexivity.
  - rewrite Hmsg'. vm_compute in Hmsg'. symmetry. exact Hmsg'.
Defined.

(** C8: -1.00 in CA. *)
Lemma calculate_tax_negative_amount_at_CA :
  @Tax.calculate_tax plain_builtins Tax.init (of_ratio (-100) 100) "CA"
  = Raise (CalculationError "Le montant ne peut pas être négatif"
             [("amount", VFloat (of_ratio (-100) 100)); ("state", VStr "CA")]).
Proof.
  exact (proj1 (@calculate_tax_negative_amount plain_builtins Tax.init
                  (of_ratio (-100) 100) "CA" Tax.CA
                  {| Tax.rate := of_ratio 825 100;
                     Tax.description := "California Sales Tax";
                     Tax.enabled := true |}
                  eq_refl eq_refl eq_refl eq_refl)).
Defined.

(** C10: quantity 2 at 4.999 in CA; 4.999 is not a two-decimal price, and
    the subtotal is 10.00. *)
Lemma excess_precision_at_4_999 :
  round2 (of_ratio 4999 1000) <> of_ratio 4999 1000
  /\ exists b,
       @Pipeline.calculate_final_price plain_builtins Pipeline.init 2
         (of_ratio 4999 1000) "CA" = Ok b
       /\ Pipeline.subtotal b = of_ratio 1000 100.
Proof.
  split; [vm_compute; discriminate|].
  destruct (@excess_precision_is_rounded plain_builtins 2 (of_ratio 4999 1000) "CA"
              ltac:(lia) eq_refl eq_refl eq_refl eq_refl) as (b & Hb & Hsub).
  exists b; split; [exact Hb|].
  rewrite Hsub. vm_compute. reflexivity.
Defined.

(** An unknown code on valid inputs: the pipeline's error is a
    [CalculationError]. *)
Lemma pipeline_error_classes_at_ZZ :
  is_ValueError
    (CalculationError
       (@py_str plain_builtins (InvalidStateError "ZZ" Tax.list_states))
       [("quantity", VInt 5); ("unit_price", VFloat (of_ratio 1000 100));
        ("state", VStr "ZZ")]) = true
  \/ is_CalculationError
       (CalculationError
          (@py_str plain_builtins (InvalidStateError "ZZ" Tax.list_states))
          [("quantity", VInt 5); ("unit_price", VFloat (of_ratio 1000 100));
           ("state", VStr "ZZ")]) = true.
Proof.
  exact (@pipeline_error_classes plain_builtins Pipeline.init 5
           (of_ratio 1000 100) "ZZ" _ eq_refl).
Defined.

Lemma absent_entry_at_CA :
  @Tax.validate_state plain_builtins CA_absent "CA"
  = Raise (StateNotSupportedError "CA").
Proof.
  exact (proj1 (@absent_entry_is_not_supported plain_builtins CA_absent
                  (of_int 95) "CA" Tax.CA eq_refl eq_refl)).
Defined.

Lemma unknown_code_at_lowercase_ca :
  @Tax.calculate_tax plain_builtins Tax.init (of_int 95) "ca"
  = Raise (InvalidStateError "ca" ["UT"; "NV"; "TX"; "AL"; "CA"]).
Proof.
  refine (proj1 (proj2 (@unknown_code_in_tax_engine plain_builtins Tax.init
                          (of_int 95) "ca" _))).
  cbn; intros [Hc | [Hc | [Hc | [Hc | [Hc | []]]]]]; discriminate Hc.
Defined.

Lemma breakdown_at_scenario_2 :
  exists b,
    @Pipeline.calculate_final_price plain_builtins Pipeline.init 10
      (of_ratio 199 100) "CA" = Ok b
    /\ Pipeline.subtotal b = of_ratio 1990 100
    /\ Pipeline.discount_percentage b = zero
    /\ Pipeline.tax_amount b = of_ratio 164 100
    /\ Pipeline.final_price b = of_ratio 2154 100.
Proof.
  eexists; split; [vm_compute; reflexivity|].
  match goal with
  | |- Pipeline.subtotal ?b = _ /\ _ =>
      pose proof (@breakdown_of_valid_inputs plain_builtins 10
                    (of_ratio 199 100) "CA" b
                    ltac:(vm_compute; reflexivity)) as Hb
  end.
  cbv zeta in Hb. destruct Hb as (Hs & _).
  split; [rewrite Hs; vm_compute; reflexivity|].
  repeat split; vm_compute; reflexivity.
Defined.

(** X7: at 200 the rules A and B both apply with 10 %; A, listed first, is
    returned. *)
Lemma first_maximum_at_tie :
  exists before after,
    Discount.applicable_rules tied_rules (of_int 200)
    = (before ++ nth 0 (Discount.discount_rules tied_rules) (rule_at 0)
         :: after)%list
    /\ (forall rule, In rule before ->
          fle (of_int 10) (Discount.discount_percentage rule) = false)
    /\ (forall rule, In rule after ->
          flt (of_int 10) (Discount.discount_percentage rule) = false).
Proof.
  exact (get_applicable_discount_first_maximum tied_rules (of_int 200)
           (nth 0 (Discount.discount_rules tied_rules) (rule_at 0)) eq_refl).
Defined.

(** X11: 95.00 in CA. *)
Lemma calculate_tax_amounts_nonneg_at_CA :
  exists info,
    @Tax.calculate_tax plain_builtins Tax.init (of_int 95) "CA" = Ok info
    /\ flt (Tax.t_original_amount info) zero = false
    /\ flt (Tax.t_tax_amount info) zero = false
    /\ flt (Tax.t_final_amount info) zero = false.
Proof.
  destruct (@calculate_tax_ok plain_builtins Tax.init (of_int 95) "CA" Tax.CA
              {| Tax.rate := of_ratio 825 100;
                 Tax.description := "California Sales Tax";
                 Tax.enabled := true |}
              eq_refl eq_refl eq_refl eq_refl) as (info & Hok & _ & Hrate & _).
  exists info; split; [exact Hok|].
  apply (@calculate_tax_amounts_nonneg plain_builtins Tax.init (of_int 95) "CA"
           info Hok).
  rewrite Hrate. reflexivity.
Defined.

(** X12: scenario 1. *)
Lemma breakdown_fields_nonneg_at_scenario_1 :
  exists b,
    @Pipeline.calculate_final_price plain_builtins Pipeline.init 1
      (of_ratio 10000 100) "CA" = Ok b
    /\ flt (Pipeline.discount_amount b) zero = false
    /\ flt (Pipeline.final_price b) zero = false.
Proof.
  destruct (@calculate_final_price_returns plain_builtins 1 (of_ratio 10000 100)
              "CA" eq_refl eq_refl) as (b & Hb & _).
  exists b; split; [exact Hb|].
  destruct (@breakdown_fields_nonneg plain_builtins 1 (of_ratio 10000 100) "CA"
              b Hb) as (_ & _ & Hd & _ & _ & _ & Hf).
  split; assumption.
Defined.

(** X13: three units at a NaN price in TX. *)
Lemma nan_unit_price_at_TX :
  exists b,
    @Pipeline.calculate_final_price plain_builtins Pipeline.init 3 S754_nan "TX"
    = Ok b
    /\ Pipeline.final_price b = S754_nan.
Proof.
  destruct (@nan_unit_price_is_accepted plain_builtins 3 "TX"
              ltac:(lia) eq_refl) as (b & Hb & _ & _ & _ & _ & _ & Hf).
  exists b; split; assumption.
Defined.


(** X15: a padded product name. *)
Lemma validate_name_at_padded_name :
  Models.validate_name ascii_isspace (list_ascii_of_string "XPS 13")
  = Ok (list_ascii_of_string "XPS 13").
Proof.
  exact (proj2 (proj2 (proj2 (proj2
           (validate_name_accepts ascii_isspace
              (list_ascii_of_string "  XPS 13 ")
              (list_ascii_of_string "XPS 13") eq_refl))))).
Defined.

(** X17: 100 units at 99999.99. *)
Lemma validate_total_amount_agrees_at_max :
  Pipeline.validate_inputs Pipeline.init 100 (of_ratio 9999999 100) = Ok tt.
Proof.
  exact (proj2 (validate_total_amount_agrees 100 (of_ratio 9999999 100))
           ltac:(lia) eq_refl eq_refl eq_refl).
Defined.
